(** * Drug lookup and analysis layer of the Consolidated View page

    Shallow embedding of the lookup / fetch / derivation / context code of
    [pages/02_Consolidated_View.py]: [get_bnf_lookup], [search_drugs],
    [get_openprescribing_data], [get_total_spending_trend],
    [get_drug_spending_by_icb], [get_enhanced_drug_analysis],
    [get_related_drugs_context] and the [comprehensive_context] f-string.

    Modelling choices.
    - Python [str] is modelled as an ASCII [string]; [lower], [upper],
      [title] and [isdigit] act on ASCII letters and digits.
    - A Python exception is the [Raise] case of [outcome]; shapes of data the
      model does not cover (a cost cell that is not a JSON number, a JSON
      payload pandas would read in a way not modelled here) give
      [OutOfModel], which is never counted as "no exception".
    - Float values are idealised as rationals ([Q]) with the IEEE special
      results of a division by zero ([NaN], [PInf], [NInf]) kept: numpy
      float division does not raise, it returns those values; division of
      Python [float]s raises [ZeroDivisionError].
    - [datetime.now()] is one reading [now] (seconds) per request.
    - The upstream HTTP service is an oracle [upstream endpoint code]. *)

From Stdlib Require Import String Ascii List Bool ZArith QArith Lia Sorting Permutation.
Import ListNotations.
Open Scope string_scope.
Set Warnings "-register-all".

(** ** Python strings (ASCII) *)

Definition is_upper_ch (c : ascii) : bool :=
  let n := nat_of_ascii c in Nat.leb 65 n && Nat.leb n 90.
Definition is_lower_ch (c : ascii) : bool :=
  let n := nat_of_ascii c in Nat.leb 97 n && Nat.leb n 122.
Definition is_digit_ch (c : ascii) : bool :=
  let n := nat_of_ascii c in Nat.leb 48 n && Nat.leb n 57.

Definition lower_ch (c : ascii) : ascii :=
  if is_upper_ch c then ascii_of_nat (nat_of_ascii c + 32) else c.
Definition upper_ch (c : ascii) : ascii :=
  if is_lower_ch c then ascii_of_nat (nat_of_ascii c - 32) else c.

Fixpoint str_map (f : ascii -> ascii) (s : string) : string :=
  match s with
  | EmptyString => EmptyString
  | String c s' => String (f c) (str_map f s')
  end.

(** [str.lower()] and [str.upper()]. *)
Definition py_lower (s : string) : string := str_map lower_ch s.
Definition py_upper (s : string) : string := str_map upper_ch s.

(** [str.title()]: CPython's [do_title] keeps a [previous_is_cased] flag;
    a character after a cased one is lowered, any other is title-cased. *)
Fixpoint title_from (prev_cased : bool) (s : string) : string :=
  match s with
  | EmptyString => EmptyString
  | String c s' =>
      String (if prev_cased then lower_ch c else upper_ch c)
             (title_from (is_upper_ch c || is_lower_ch c) s')
  end.
Definition py_title (s : string) : string := title_from false s.

(** [str.isdigit()]: non-empty and only digits. *)
Definition py_isdigit (s : string) : bool :=
  match s with
  | EmptyString => false
  | _ => (fix all (s : string) : bool :=
            match s with
            | EmptyString => true
            | String c s' => is_digit_ch c && all s'
            end) s
  end.

(** [s.replace(c, '')] for a one-character [c]. *)
Fixpoint remove_ch (c : ascii) (s : string) : string :=
  match s with
  | EmptyString => EmptyString
  | String d s' => if Ascii.eqb c d then remove_ch c s' else String d (remove_ch c s')
  end.

Fixpoint str_chars (s : string) : list ascii :=
  match s with
  | EmptyString => []
  | String c s' => c :: str_chars s'
  end.

(** The chain [query.replace('A', '').replace('B', '') ... .replace('Z', '')]. *)
Definition strip_AZ (q : string) : string :=
  fold_left (fun acc c => remove_ch c acc)
            (str_chars "ABCDEFGHIJKLMNOPQRSTUVWXYZ") q.

Fixpoint str_prefix (p s : string) : bool :=
  match p, s with
  | EmptyString, _ => true
  | String a p', String b s' => Ascii.eqb a b && str_prefix p' s'
  | String _ _, EmptyString => false
  end.

(** Python's [p in s] on strings. *)
Fixpoint py_in (p s : string) : bool :=
  str_prefix p s ||
  match s with
  | EmptyString => false
  | String _ s' => py_in p s'
  end.

(** [s[:n]]. *)
Fixpoint str_take (n : nat) (s : string) : string :=
  match n, s with
  | O, _ => EmptyString
  | S n', String c s' => String c (str_take n' s')
  | S _, EmptyString => EmptyString
  end.

Definition nl : string := String (ascii_of_nat 10) EmptyString.

Fixpoint join (sep : string) (l : list string) : string :=
  match l with
  | [] => ""
  | [x] => x
  | x :: l' => x ++ sep ++ join sep l'
  end.

(** ** Python dictionaries built from literals

    A dict literal with a repeated key keeps the key at its first position
    and the value of its last occurrence. *)

Fixpoint dict_set {V : Type} (k : string) (v : V) (d : list (string * V))
  : list (string * V) :=
  match d with
  | [] => [(k, v)]
  | (k', v') :: d' =>
      if String.eqb k k' then (k', v) :: d' else (k', v') :: dict_set k v d'
  end.

Definition dict_of_literal {V : Type} (entries : list (string * V))
  : list (string * V) :=
  fold_left (fun d kv => dict_set (fst kv) (snd kv) d) entries [].

Fixpoint dict_get {V : Type} (k : string) (d : list (string * V)) : option V :=
  match d with
  | [] => None
  | (k', v) :: d' => if String.eqb k k' then Some v else dict_get k d'
  end.

(** ** [get_bnf_lookup]: the static reference table *)

(** The dict literal as written, entry by entry (name, (code, category));
    ['prednisolone'] occurs twice. *)
Definition bnf_lookup_literal : list (string * (string * string)) := [
  ("ramipril", ("0205051R0", "ACE Inhibitor"));
  ("amlodipine", ("0206020A0", "Calcium Channel Blocker"));
  ("atorvastatin", ("0212000Y0", "Statin"));
  ("simvastatin", ("0212000X0", "Statin"));
  ("warfarin", ("0208020W0", "Anticoagulant"));
  ("clopidogrel", ("0209000C0", "Antiplatelet"));
  ("paracetamol", ("0407010Q0", "Analgesic"));
  ("morphine", ("0407020Q0", "Opioid Analgesic"));
  ("tramadol", ("0407020T0", "Opioid Analgesic"));
  ("sertraline", ("0403030Q0", "SSRI Antidepressant"));
  ("fluoxetine", ("0403030F0", "SSRI Antidepressant"));
  ("citalopram", ("0403030C0", "SSRI Antidepressant"));
  ("lorazepam", ("0401020L0", "Benzodiazepine"));
  ("amoxicillin", ("0501013B0", "Penicillin Antibiotic"));
  ("flucloxacillin", ("0501011F0", "Penicillin Antibiotic"));
  ("ciprofloxacin", ("0501040C0", "Quinolone Antibiotic"));
  ("metronidazole", ("0501040M0", "Antibiotic"));
  ("metformin", ("0601022B0", "Diabetes - Biguanide"));
  ("insulin", ("0601010H0", "Diabetes - Insulin"));
  ("gliclazide", ("0601021G0", "Diabetes - Sulfonylurea"));
  ("levothyroxine", ("0602010L0", "Thyroid Hormone"));
  ("prednisolone", ("0603020P0", "Corticosteroid"));
  ("omeprazole", ("0103050P0", "Proton Pump Inhibitor"));
  ("lansoprazole", ("0103050L0", "Proton Pump Inhibitor"));
  ("ranitidine", ("0103020R0", "H2 Receptor Antagonist"));
  ("loperamide", ("0104020L0", "Anti-diarrhoeal"));
  ("salbutamol", ("0301011R0", "Beta2 Agonist"));
  ("beclometasone", ("0302000N0", "Corticosteroid"));
  ("prednisolone", ("0302020P0", "Oral Corticosteroid"));
  ("omalizumab", ("0302020O0", "Monoclonal Antibody"));
  ("montelukast", ("0303020M0", "Leukotriene Receptor Antagonist"));
  ("adalimumab", ("0212000AA", "TNF Alpha Inhibitor"));
  ("infliximab", ("0212000AC", "TNF Alpha Inhibitor"));
  ("etanercept", ("0212000AB", "TNF Alpha Inhibitor"));
  ("rituximab", ("0801020T0", "Monoclonal Antibody"));
  ("trastuzumab", ("0801020Q0", "Monoclonal Antibody"));
  ("bevacizumab", ("0801020B0", "Monoclonal Antibody"));
  ("folic acid", ("0906011F0", "Vitamin B9"));
  ("iron sulfate", ("0901011I0", "Iron Supplement"));
  ("vitamin d", ("0906060V0", "Vitamin D"));
  ("ibuprofen", ("1001010I0", "NSAID"));
  ("diclofenac", ("1001010D0", "NSAID"));
  ("naproxen", ("1001010N0", "NSAID"));
  ("allopurinol", ("1003020A0", "Uric Acid Reducer"));
  ("chloramphenicol", ("1103010C0", "Antibiotic Eye Drops"));
  ("timolol", ("1106020T0", "Glaucoma Treatment"));
  ("sodium chloride", ("1201010S0", "Nasal Decongestant"));
  ("hydrocortisone", ("1303020H0", "Topical Corticosteroid"));
  ("emollient", ("1301020E0", "Skin Moisturizer"))
].

(** The dict [get_bnf_lookup()] returns. *)
Definition get_bnf_lookup : list (string * (string * string)) :=
  Eval vm_compute in dict_of_literal bnf_lookup_literal.

(** [get_bnf_categories()]: only its first [return] is reachable. *)
Definition get_bnf_categories : list (string * string) := [
  ("01", "Gastro-Intestinal System"); ("02", "Cardiovascular System");
  ("03", "Respiratory System"); ("04", "Central Nervous System");
  ("05", "Infections"); ("06", "Endocrine System");
  ("07", "Obstetrics, Gynaecology, and Urinary-Tract Disorders");
  ("08", "Malignant Disease and Immunosuppression");
  ("09", "Nutrition and Blood"); ("10", "Musculoskeletal and Joint Diseases");
  ("11", "Eye"); ("12", "Ear, Nose, and Oropharynx"); ("13", "Skin");
  ("14", "Immunological Products and Vaccines"); ("15", "Anaesthesia")].

(** ** Exceptions and the outcome of a Python computation *)

Inductive exn : Type :=
| KeyError | IndexError | TypeError | ValueError | AttributeError
| ZeroDivisionError | OverflowError.

Inductive outcome (A : Type) : Type :=
| Ok (a : A)
| Raise (e : exn)
| OutOfModel.
Arguments Ok {A} a.
Arguments Raise {A} e.
Arguments OutOfModel {A}.

Definition bind {A B : Type} (m : outcome A) (k : A -> outcome B) : outcome B :=
  match m with
  | Ok a => k a
  | Raise e => Raise e
  | OutOfModel => OutOfModel
  end.

Notation "'let?' x ':=' m 'in' k" := (bind m (fun x => k))
  (at level 200, x name, m at level 100, k at level 200).

(** A statement completes without an exception. *)
Definition no_raise {A : Type} (m : outcome A) : Prop :=
  exists a, m = Ok a.

(** ** JSON payloads, pandas cells and frames *)

Inductive json : Type :=
| JNull
| JBool (b : bool)
| JNum (q : Q)
| JStr (s : string)
| JArr (l : list json)
| JObj (kvs : list (string * json)).

(** Python truthiness of the value [response.json()] returns. *)
Definition py_truthy (j : json) : bool :=
  match j with
  | JNull => false
  | JBool b => b
  | JNum q => negb (Qeq_bool q 0)
  | JStr s => negb (String.eqb s "")
  | JArr l => negb (Nat.eqb (length l) 0)
  | JObj kvs => negb (Nat.eqb (length kvs) 0)
  end.

Definition is_scalar (j : json) : bool :=
  match j with JArr _ | JObj _ => false | _ => true end.

(** A cell of a frame: a JSON value as read, a parsed timestamp (seconds), or
    [NaT]. *)
Inductive cell : Type :=
| CJ (j : json)
| CTime (t : Z)
| CNaT.

Definition row := list (string * cell).

Record frame : Type := mkFrame { cols : list string; rows : list row }.

Definition empty_frame : frame := mkFrame [] [].

(** [df.empty]: some axis has length 0. *)
Definition frame_empty (df : frame) : bool :=
  match cols df, rows df with
  | [], _ | _, [] => true
  | _, _ => false
  end.

Definition has_col (c : string) (df : frame) : bool :=
  existsb (String.eqb c) (cols df).

Definition row_get (c : string) (r : row) : cell :=
  match dict_get c r with Some x => x | None => CJ JNull end.

Definition as_object (j : json) : option (list (string * json)) :=
  match j with JObj kvs => Some kvs | _ => None end.

Fixpoint all_objects (l : list json) : option (list (list (string * json))) :=
  match l with
  | [] => Some []
  | j :: l' =>
      match as_object j, all_objects l' with
      | Some o, Some os => Some (o :: os)
      | _, _ => None
      end
  end.

Definition add_keys (ks : list string) (o : list (string * json)) : list string :=
  fold_left (fun ks kv => if existsb (String.eqb (fst kv)) ks then ks
                          else app ks [fst kv]) o ks.

(** [pd.DataFrame(data)]: a list of records gives the union of their keys as
    columns (in order of first appearance); a dict of scalars raises
    [ValueError] ("If using all scalar values, you must pass an index"); a
    bare scalar raises [ValueError] ("DataFrame constructor not properly
    called!"); [None] and [{}] give an empty frame. *)
Definition frame_of_json (j : json) : outcome frame :=
  match j with
  | JNull => Ok empty_frame
  | JArr l =>
      match all_objects l with
      | Some os =>
          Ok (mkFrame (fold_left add_keys os [])
                      (map (map (fun kv => (fst kv, CJ (snd kv)))) os))
      | None => OutOfModel
      end
  | JObj [] => Ok empty_frame
  | JObj kvs => if forallb (fun kv => is_scalar (snd kv)) kvs
                then Raise ValueError else OutOfModel
  | JBool _ | JNum _ | JStr _ => Raise ValueError
  end.

(** ** Dates and [pd.to_datetime]

    Timestamps are seconds from 1970-01-01; the calendar conversions are the
    usual proleptic Gregorian day-number algorithms. *)

Open Scope Z_scope.

Definition days_from_civil (y m d : Z) : Z :=
  let y' := if Z.leb m 2 then y - 1 else y in
  let era := Z.div y' 400 in
  let yoe := y' - era * 400 in
  let mp := Z.modulo (m + 9) 12 in
  let doy := Z.div (153 * mp + 2) 5 + d - 1 in
  let doe := yoe * 365 + Z.div yoe 4 - Z.div yoe 100 + doy in
  era * 146097 + doe - 719468.

(** (year, month, day) of a day number. *)
Definition civil_from_days (z : Z) : Z * Z * Z :=
  let z := z + 719468 in
  let era := Z.div z 146097 in
  let doe := z - era * 146097 in
  let yoe := Z.div (doe - Z.div doe 1460 + Z.div doe 36524 - Z.div doe 146096) 365 in
  let doy := doe - (365 * yoe + Z.div yoe 4 - Z.div yoe 100) in
  let mp := Z.div (5 * doy + 2) 153 in
  let d := doy - Z.div (153 * mp + 2) 5 + 1 in
  let m := if Z.ltb mp 10 then mp + 3 else mp - 9 in
  let y := yoe + era * 400 + (if Z.leb m 2 then 1 else 0) in
  (y, m, d).

Definition day_seconds : Z := 86400.

(** [Timestamp.month] and [Timestamp.quarter]. *)
Definition month_of (t : Z) : Z :=
  let '(_, m, _) := civil_from_days (Z.div t day_seconds) in m.
Definition quarter_of (t : Z) : Z := Z.div (month_of t - 1) 3 + 1.

Definition is_leap (y : Z) : bool :=
  (Z.eqb (Z.modulo y 4) 0 && negb (Z.eqb (Z.modulo y 100) 0))
  || Z.eqb (Z.modulo y 400) 0.

Definition days_in_month (y m : Z) : Z :=
  if Z.eqb m 2 then (if is_leap y then 29 else 28)
  else if existsb (Z.eqb m) [4; 6; 9; 11] then 30 else 31.

Definition digit_val (c : ascii) : Z := Z.of_nat (nat_of_ascii c) - 48.

(** Parsing one date string by [pd.to_datetime]. Only the ISO form
    [YYYY-MM-DD] the upstream API sends is modelled: [None] is a string of
    another form (outside the model), [Some None] a string of that form that
    is no calendar date (pandas raises), [Some (Some t)] the timestamp. *)
Definition parse_iso_date (s : string) : option (option Z) :=
  match str_chars s with
  | [y1; y2; y3; y4; s1; m1; m2; s2; d1; d2] =>
      if forallb is_digit_ch [y1; y2; y3; y4; m1; m2; d1; d2]
         && Ascii.eqb s1 "-"%char && Ascii.eqb s2 "-"%char
      then
        let y := digit_val y1 * 1000 + digit_val y2 * 100
                 + digit_val y3 * 10 + digit_val y4 in
        let m := digit_val m1 * 10 + digit_val m2 in
        let d := digit_val d1 * 10 + digit_val d2 in
        if Z.leb 1 m && Z.leb m 12 && Z.leb 1 d && Z.leb d (days_in_month y m)
        then Some (Some (days_from_civil y m d * day_seconds))
        else Some None
      else None
  | _ => None
  end.

Definition to_datetime_cell (c : cell) : outcome cell :=
  match c with
  | CJ (JStr s) =>
      match parse_iso_date s with
      | Some (Some t) => Ok (CTime t)
      | Some None => Raise ValueError
      | None => OutOfModel
      end
  | CJ JNull => Ok CNaT
  | CTime t => Ok (CTime t)
  | CNaT => Ok CNaT
  | CJ _ => OutOfModel
  end.

Fixpoint map_outcome {A B : Type} (f : A -> outcome B) (l : list A)
  : outcome (list B) :=
  match l with
  | [] => Ok []
  | x :: l' => let? y := f x in let? ys := map_outcome f l' in Ok (y :: ys)
  end.

(** [df['date'] = pd.to_datetime(df['date'])]. *)
Definition to_datetime_col (df : frame) : outcome frame :=
  let? rs := map_outcome
               (fun r => let? c := to_datetime_cell (row_get "date" r) in
                         Ok (dict_set "date" c r)) (rows df) in
  Ok (mkFrame (cols df) rs).

(** Order of [sort_values('date')] (NaT last). The sort below is stable;
    pandas' default quicksort may order rows with equal dates otherwise. *)
Definition date_le (a b : row) : bool :=
  match row_get "date" a, row_get "date" b with
  | CTime x, CTime y => Z.leb x y
  | CTime _, _ => true
  | _, CTime _ => false
  | _, _ => true
  end.

Fixpoint insert_row (r : row) (l : list row) : list row :=
  match l with
  | [] => [r]
  | x :: l' => if date_le x r then x :: insert_row r l' else r :: l
  end.

Definition sort_by_date (df : frame) : frame :=
  mkFrame (cols df) (fold_left (fun acc r => insert_row r acc) (rows df) []).

(** [df[df['date'] >= cutoff_date]]: NaT compares false. *)
Definition keep_since (cutoff : Z) (df : frame) : frame :=
  mkFrame (cols df)
          (filter (fun r => match row_get "date" r with
                            | CTime t => Z.leb cutoff t
                            | _ => false
                            end) (rows df)).

(** ** Python values passed as [months] *)

Inductive pyval : Type :=
| PInt (z : Z)
| PStr (s : string).

Fixpoint str_repeat (n : nat) (s : string) : string :=
  match n with O => "" | S n' => s ++ str_repeat n' s end.

(** [months * 30]: integer product, or string repetition. *)
Definition py_mul30 (v : pyval) : pyval :=
  match v with
  | PInt z => PInt (z * 30)
  | PStr s => PStr (str_repeat 30 s)
  end.

(** [timedelta(days=v)] in seconds; a [str] raises [TypeError], more than
    [999999999] days either way raises [OverflowError]. *)
Definition timedelta_days (v : pyval) : outcome Z :=
  match v with
  | PInt z => if Z.ltb 999999999 (Z.abs z) then Raise OverflowError
              else Ok (z * day_seconds)
  | PStr _ => Raise TypeError
  end.

(** [datetime.min] and [datetime.max] (to the second). *)
Definition datetime_min : Z := days_from_civil 1 1 1 * day_seconds.
Definition datetime_max : Z := days_from_civil 9999 12 31 * day_seconds + 86399.

(** [t - delta] on [datetime]: a result outside [datetime.min .. datetime.max]
    raises [OverflowError]. *)
Definition datetime_sub (t delta : Z) : outcome Z :=
  let r := t - delta in
  if Z.ltb r datetime_min || Z.ltb datetime_max r then Raise OverflowError else Ok r.

(** ** The upstream API and the fetchers *)

(** What [requests.get(...)], [raise_for_status()] and [response.json()]
    give: a [RequestException] (connection error, timeout, HTTP error status,
    body that is not JSON) or a decoded JSON value. *)
Inductive response : Type :=
| RespRequestException
| RespJson (j : json).

Record env : Type := mkEnv {
  upstream : string -> string -> response;   (* endpoint, code *)
  now : Z
}.

(** [get_openprescribing_data(endpoint, params)]: the exception is caught
    and [None] returned. *)
Definition get_openprescribing_data (e : env) (endpoint code : string)
  : option json :=
  match upstream e endpoint code with
  | RespRequestException => None
  | RespJson j => Some j
  end.

Definition is_truthy (d : option json) : bool :=
  match d with Some j => py_truthy j | None => false end.

(** [get_total_spending_trend(bnf_code, months)]. *)
Definition get_total_spending_trend (e : env) (bnf_code : string) (months : pyval)
  : outcome frame :=
  match get_openprescribing_data e "spending" bnf_code with
  | Some data =>
      if py_truthy data then
        let? df := frame_of_json data in
        if negb (frame_empty df) && has_col "date" df then
          let? df := to_datetime_col df in
          let df := sort_by_date df in
          let? delta := timedelta_days (py_mul30 months) in
          let? cutoff_date := datetime_sub (now e) delta in
          Ok (keep_since cutoff_date df)
        else Ok df
      else Ok empty_frame
  | None => Ok empty_frame
  end.

(** [get_drug_spending_by_icb(bnf_code, months)]. *)
Definition get_drug_spending_by_icb (e : env) (bnf_code : string) (months : pyval)
  : outcome frame :=
  match get_openprescribing_data e "spending_by_org" bnf_code with
  | Some data =>
      if py_truthy data then
        let? df := frame_of_json data in
        if negb (frame_empty df) && has_col "date" df then
          let? df := to_datetime_col df in
          let? delta := timedelta_days (py_mul30 months) in
          let? cutoff_date := datetime_sub (now e) delta in
          Ok (keep_since cutoff_date df)
        else Ok df
      else Ok empty_frame
  | None => Ok empty_frame
  end.

Close Scope Z_scope.

(** ** [search_drugs]: the query resolver *)

(** A match [(name, code, category)]. *)
Definition drug : Type := (string * string * string)%type.

(** The guard [len(query) == 10 and query.replace('A', '')...isdigit()]. *)
Definition is_code_query (q : string) : bool :=
  Nat.eqb (String.length q) 10 && py_isdigit (strip_AZ q).

(** The loop building [local_matches]. *)
Fixpoint collect_matches (query_lower : string)
         (d : list (string * (string * string))) : list drug :=
  match d with
  | [] => []
  | (name, (code, category)) :: d' =>
      if py_in query_lower (py_lower name)
      then (name, code, category) :: collect_matches query_lower d'
      else collect_matches query_lower d'
  end.

Definition common_prefixes : list string :=
  ["0301"; "0302"; "0303"; "0601"; "0602"; "0801"; "0212"].

(** The [for prefix in common_prefixes] loop; [Some r] is a [return r]. *)
Fixpoint probe_prefixes (e : env) (query : string) (ps : list string)
  : outcome (option (list drug)) :=
  match ps with
  | [] => Ok None
  | prefix :: ps' =>
      let potential_code := prefix ++ "000" ++ py_upper (str_take 2 query) ++ "0" in
      let? test_data := get_total_spending_trend e potential_code (PInt 1) in
      if negb (frame_empty test_data)
      then Ok (Some [(py_title query, potential_code, "Found via API search")])
      else probe_prefixes e query ps'
  end.

(** The body of the [try] block. *)
Definition try_remote (e : env) (query : string) : outcome (option (list drug)) :=
  let? test_data := get_total_spending_trend e query (PInt 1) in
  if negb (frame_empty test_data)
  then Ok (Some [(py_title query, py_lower query, "Found in OpenPrescribing Database")])
  else probe_prefixes e query common_prefixes.

(** [except Exception: pass]. *)
Definition catch_all {A : Type} (m : outcome (option A)) : outcome (option A) :=
  match m with
  | Raise _ => Ok None
  | _ => m
  end.

(** One-character strings of [s], as [for char in s] yields them. *)
Definition py_iter_chars (s : string) : list string :=
  map (fun c => String c EmptyString) (str_chars s).

(** The suggestion loop:
    [if any(char in query_lower for char in name.lower() if len(char) > 2)]. *)
Fixpoint collect_suggestions (query_lower : string)
         (d : list (string * (string * string))) : list drug :=
  match d with
  | [] => []
  | (name, (code, category)) :: d' =>
      if existsb (fun ch => py_in ch query_lower)
                 (filter (fun ch => Nat.ltb 2 (String.length ch))
                         (py_iter_chars (py_lower name)))
      then (name, code, "Similar to: " ++ category) :: collect_suggestions query_lower d'
      else collect_suggestions query_lower d'
  end.

(** The part of [search_drugs] after the direct-code check: the table lookup,
    then the remote probes, then the suggestions. *)
Definition search_tail (e : env) (query : string) : outcome (list drug) :=
  let bnf_lookup := get_bnf_lookup in
  let query_lower := py_lower query in
  let local_matches := collect_matches query_lower bnf_lookup in
  match local_matches with
  | _ :: _ => Ok local_matches
  | [] =>
      let? found := catch_all (try_remote e query) in
      match found with
      | Some r => Ok r
      | None => Ok (firstn 3 (collect_suggestions query_lower bnf_lookup))
      end
  end.

Definition search_drugs (e : env) (query : string) : outcome (list drug) :=
  let? direct :=
    if is_code_query query then
      let? test_data := get_total_spending_trend e query (PInt 1) in
      Ok (if negb (frame_empty test_data)
          then Some [(py_title query, py_upper query, "Direct BNF Code")]
          else None)
    else Ok None in
  match direct with
  | Some r => Ok r
  | None => search_tail e query
  end.

(** ** Float results *)

Open Scope Q_scope.

(** A float value: a finite value, or a special result of division by 0. *)
Inductive num : Type :=
| Fin (q : Q)
| NaN
| PInf
| NInf.

(** numpy float division [a / b]. *)
Definition fdiv (a b : Q) : num :=
  if Qeq_bool b 0 then
    (if Qeq_bool a 0 then NaN else if Qle_bool a 0 then NInf else PInf)
  else Fin (a / b).

(** Python [float] division [a / b]: a zero divisor raises [ZeroDivisionError]. *)
Definition py_div (a b : Q) : outcome Q :=
  if Qeq_bool b 0 then Raise ZeroDivisionError else Ok (a / b).

(** [x * 100] on a float. *)
Definition times100 (x : num) : num :=
  match x with
  | Fin q => Fin (q * 100)
  | other => other
  end.

Definition qsum (l : list Q) : Q := fold_left Qplus l 0.
Definition qmean (l : list Q) : Q := qsum l / inject_Z (Z.of_nat (length l)).

(** [Series.max()] / [Series.min()]; an empty series is out of scope. *)
Definition qmax (l : list Q) : outcome Q :=
  match l with
  | [] => OutOfModel
  | x :: l' => Ok (fold_left (fun m y => if Qle_bool y m then m else y) l' x)
  end.
Definition qmin (l : list Q) : outcome Q :=
  match l with
  | [] => OutOfModel
  | x :: l' => Ok (fold_left (fun m y => if Qle_bool m y then m else y) l' x)
  end.

(** [Series.idxmax()] / [idxmin()]: label of the first extreme value; an
    empty series raises [ValueError]. *)
Definition idx_extreme {K : Type} (better : Q -> Q -> bool) (l : list (K * Q))
  : outcome K :=
  match l with
  | [] => Raise ValueError
  | (k, v) :: l' =>
      Ok (fst (fold_left (fun acc kv => if better (snd kv) (snd acc) then kv else acc)
                         l' (k, v)))
  end.
Definition idxmax {K : Type} := @idx_extreme K (fun x m => negb (Qle_bool x m)).
Definition idxmin {K : Type} := @idx_extreme K (fun x m => negb (Qle_bool m x)).

Fixpoint insert_q (x : Q) (l : list Q) : list Q :=
  match l with
  | [] => [x]
  | y :: l' => if Qle_bool y x then y :: insert_q x l' else x :: l
  end.
Definition sort_q (l : list Q) : list Q := fold_left (fun acc x => insert_q x acc) l [].

(** [Series.median()] of a non-empty series. *)
Definition qmedian (l : list Q) : Q :=
  let s := sort_q l in
  let n := length s in
  if Nat.even n
  then (nth (n / 2 - 1) s 0 + nth (n / 2) s 0) / 2
  else nth (n / 2) s 0.

(** ** Reading frame columns *)

(** [float(cell)] for a cost or item cell: only JSON numbers are modelled. *)
Definition num_of_cell (c : cell) : outcome Q :=
  match c with
  | CJ (JNum q) => Ok q
  | _ => OutOfModel
  end.

(** [df[c]]: [KeyError] when the column is missing. *)
Definition column (df : frame) (c : string) : outcome (list cell) :=
  if has_col c df then Ok (map (row_get c) (rows df)) else Raise KeyError.

Definition num_column (df : frame) (c : string) : outcome (list Q) :=
  let? cs := column df c in map_outcome num_of_cell cs.

(** [df[c].iloc[-k]] for [k >= 1]: [IndexError] when [k > len(df)]. *)
Definition iloc_neg (df : frame) (c : string) (k : nat) : outcome Q :=
  let? xs := num_column df c in
  if Nat.leb k (length xs) then Ok (nth (length xs - k) xs 0)
  else Raise IndexError.

Definition time_of_cell (c : cell) : outcome Z :=
  match c with CTime t => Ok t | _ => OutOfModel end.

Definition lastn {A : Type} (n : nat) (l : list A) : list A :=
  skipn (length l - n) l.

Close Scope Q_scope.

(** ** [strftime] and [isoformat] *)

Open Scope Z_scope.

Fixpoint digits_rev (fuel : nat) (z : Z) : string :=
  match fuel with
  | O => ""
  | S f =>
      String (ascii_of_nat (Z.to_nat (48 + Z.modulo z 10)))
             (if Z.ltb z 10 then "" else digits_rev f (Z.div z 10))
  end.

Fixpoint str_rev (s : string) : string :=
  match s with
  | EmptyString => EmptyString
  | String c s' => str_rev s' ++ String c EmptyString
  end.

(** Decimal digits of a non-negative integer, zero-padded to [w]. *)
Definition pad_dec (w : nat) (z : Z) : string :=
  let ds := str_rev (digits_rev 20 z) in
  str_repeat (w - String.length ds) "0" ++ ds.

(** [str(n)] of an integer. *)
Definition py_str_int (z : Z) : string :=
  if Z.ltb z 0 then "-" ++ pad_dec 0 (- z) else pad_dec 0 z.

(** [ts.strftime('%Y-%m')]. *)
Definition strftime_ym (t : Z) : string :=
  let '(y, m, _) := civil_from_days (Z.div t day_seconds) in
  pad_dec 4 y ++ "-" ++ pad_dec 2 m.

(** [datetime.isoformat()] of a reading with no microseconds. *)
Definition isoformat (t : Z) : string :=
  let '(y, m, d) := civil_from_days (Z.div t day_seconds) in
  let s := Z.modulo t day_seconds in
  pad_dec 4 y ++ "-" ++ pad_dec 2 m ++ "-" ++ pad_dec 2 d ++ "T"
  ++ pad_dec 2 (Z.div s 3600) ++ ":" ++ pad_dec 2 (Z.div (Z.modulo s 3600) 60)
  ++ ":" ++ pad_dec 2 (Z.modulo s 60).

Close Scope Z_scope.

(** ** The [analysis] dict of [get_enhanced_drug_analysis]

    Optional keys are [option] fields: [None] is an absent key. *)

Record trend_data : Type := mkTrend {
  months_of_data : nat;
  date_range : string;
  latest_cost : num;
  latest_items : num;
  mom_change_pct : option num;
  yoy_change_pct : option num;
  overall_trend : option string
}.

Record derby_data : Type := mkDerby {
  derby_cost : num;
  vs_average_pct : num;
  percentile_rank : num
}.

Record regional_data : Type := mkRegional {
  total_icbs : nat;
  highest_spending_icb : string;
  highest_spending_amount : num;
  lowest_spending_icb : string;
  lowest_spending_amount : num;
  national_total_cost : num;
  national_total_items : num;
  average_icb_cost : num;
  median_icb_cost : num;
  derby_vs_national : option derby_data
}.

Record seasonal_data : Type := mkSeasonal {
  highest_spending_month : Z;
  lowest_spending_month : Z;
  highest_spending_quarter : Z;
  seasonal_variation_pct : num
}.

Record analysis : Type := mkAnalysis {
  a_drug_name : string;
  analysis_date : string;
  data_sources : list string;
  a_trend_data : option trend_data;
  a_regional_data : option regional_data;
  a_seasonal_patterns : option seasonal_data
}.

Definition set_trend (a : analysis) (t : trend_data) : analysis :=
  mkAnalysis (a_drug_name a) (analysis_date a) (data_sources a) (Some t)
             (a_regional_data a) (a_seasonal_patterns a).
Definition set_regional (a : analysis) (r : regional_data) : analysis :=
  mkAnalysis (a_drug_name a) (analysis_date a) (data_sources a) (a_trend_data a)
             (Some r) (a_seasonal_patterns a).
Definition set_seasonal (a : analysis) (s : seasonal_data) : analysis :=
  mkAnalysis (a_drug_name a) (analysis_date a) (data_sources a) (a_trend_data a)
             (a_regional_data a) (Some s).
Definition add_source (a : analysis) (src : string) : analysis :=
  mkAnalysis (a_drug_name a) (analysis_date a) (app (data_sources a) [src])
             (a_trend_data a) (a_regional_data a) (a_seasonal_patterns a).

Definition set_mom (t : trend_data) (x : num) : trend_data :=
  mkTrend (months_of_data t) (date_range t) (latest_cost t) (latest_items t)
          (Some x) (yoy_change_pct t) (overall_trend t).
Definition set_yoy (t : trend_data) (x : num) : trend_data :=
  mkTrend (months_of_data t) (date_range t) (latest_cost t) (latest_items t)
          (mom_change_pct t) (Some x) (overall_trend t).
Definition set_overall (t : trend_data) (s : string) : trend_data :=
  mkTrend (months_of_data t) (date_range t) (latest_cost t) (latest_items t)
          (mom_change_pct t) (yoy_change_pct t) (Some s).

Open Scope Q_scope.

(** [f"{min.strftime('%Y-%m')} to {max.strftime('%Y-%m')}"] of [df['date']]. *)
Definition date_range_of (df : frame) : outcome string :=
  let? cs := column df "date" in
  let? ts := map_outcome time_of_cell cs in
  match ts with
  | [] => OutOfModel
  | t :: ts' =>
      Ok (strftime_ym (fold_left Z.min ts' t) ++ " to "
          ++ strftime_ym (fold_left Z.max ts' t))
  end.

(** [float(df[c].iloc[-1]) if c in df.columns else 0]. *)
Definition latest_or_zero (df : frame) (c : string) : outcome num :=
  if has_col c df then let? x := iloc_neg df c 1 in Ok (Fin x) else Ok (Fin 0).

(** Block 1 of [get_enhanced_drug_analysis]: extended trend data. *)
Definition trend_block (a : analysis) (trend_df : frame) : outcome analysis :=
  if frame_empty trend_df then Ok a else
  let n := length (rows trend_df) in
  let? dr := date_range_of trend_df in
  let? lc := latest_or_zero trend_df "actual_cost" in
  let? li := latest_or_zero trend_df "items" in
  let td := mkTrend n dr lc li None None None in
  let? td :=
    if Nat.leb 2 n && has_col "actual_cost" trend_df then
      let? recent_cost := iloc_neg trend_df "actual_cost" 1 in
      let? previous_cost := iloc_neg trend_df "actual_cost" 2 in
      let td := set_mom td (times100 (fdiv (recent_cost - previous_cost) previous_cost)) in
      let? td :=
        if Nat.leb 12 n then
          let? yoy_cost := iloc_neg trend_df "actual_cost" 13 in
          Ok (set_yoy td (times100 (fdiv (recent_cost - yoy_cost) yoy_cost)))
        else Ok td in
      if Nat.leb 6 n then
        let? costs := num_column trend_df "actual_cost" in
        let recent_avg := qmean (lastn 6 costs) in
        let older_avg := qmean (firstn 6 costs) in
        let trend_direction :=
          if negb (Qle_bool recent_avg (older_avg * (11 # 10))) then "increasing"
          else if negb (Qle_bool (older_avg * (9 # 10)) recent_avg) then "decreasing"
          else "stable" in
        Ok (set_overall td trend_direction)
      else Ok td
    else Ok td in
  Ok (add_source (set_trend a td) "OpenPrescribing trend data (36 months)").

Close Scope Q_scope.

(** ** Grouping *)

(** Python's ordering of [str] (code point by code point). *)
Fixpoint str_leb (a b : string) : bool :=
  match a, b with
  | EmptyString, _ => true
  | String _ _, EmptyString => false
  | String x a', String y b' =>
      if Nat.ltb (nat_of_ascii x) (nat_of_ascii y) then true
      else if Nat.eqb (nat_of_ascii x) (nat_of_ascii y) then str_leb a' b'
      else false
  end.

(** Sorted distinct group keys, as [groupby] (with [sort=True]) yields them. *)
Fixpoint insert_key {K : Type} (eqb leb : K -> K -> bool) (k : K) (l : list K)
  : list K :=
  match l with
  | [] => [k]
  | y :: l' =>
      if eqb y k then l
      else if leb y k then y :: insert_key eqb leb k l' else k :: l
  end.
Definition group_keys {K : Type} (eqb leb : K -> K -> bool) (ks : list K) : list K :=
  fold_left (fun acc k => insert_key eqb leb k acc) ks [].

Open Scope Q_scope.

(** [icb_df.groupby('row_name').agg({'actual_cost': 'sum', 'items': 'sum'})
    .reset_index()]: (region, total cost, total items); rows whose region is
    missing are dropped. *)
Definition icb_summary (df : frame) : outcome (list (string * Q * Q)) :=
  if negb (has_col "actual_cost" df && has_col "items" df) then Raise KeyError else
  let? keyed :=
    map_outcome
      (fun r => match row_get "row_name" r with
                | CJ (JStr s) =>
                    let? c := num_of_cell (row_get "actual_cost" r) in
                    let? i := num_of_cell (row_get "items" r) in
                    Ok [(s, c, i)]
                | CJ JNull => Ok []
                | _ => OutOfModel
                end) (rows df) in
  let entries := concat keyed in
  let keys := group_keys String.eqb str_leb (map (fun e => fst (fst e)) entries) in
  Ok (map (fun k =>
             let es := filter (fun e => String.eqb (fst (fst e)) k) entries in
             (k, qsum (map (fun e => snd (fst e)) es), qsum (map snd es))) keys).

Definition s_name (e : string * Q * Q) : string := fst (fst e).
Definition s_cost (e : string * Q * Q) : Q := snd (fst e).
Definition s_items (e : string * Q * Q) : Q := snd e.

(** [icb_summary[icb_summary['row_name'].str.contains('Derby', case=False)]]
    and its first row. *)
Definition find_derby (s : list (string * Q * Q)) : option (string * Q * Q) :=
  find (fun e => py_in "derby" (py_lower (s_name e))) s.

(** [(icb_summary['actual_cost'] <= derby_cost).mean() * 100]. *)
Definition percentile_of (costs : list Q) (dc : Q) : Q :=
  qmean (map (fun c => if Qle_bool c dc then 1 else 0) costs) * 100.

(** Block 2 of [get_enhanced_drug_analysis]: ICB regional analysis. *)
Definition regional_block (a : analysis) (icb_df : frame) : outcome analysis :=
  if negb (frame_empty icb_df) && has_col "row_name" icb_df then
    let? s := icb_summary icb_df in
    let? a :=
      match s with
      | [] => Ok a
      | _ :: _ =>
          let costs := map s_cost s in
          let named := map (fun e => (s_name e, s_cost e)) s in
          let? hi := idxmax named in
          let? hiv := qmax costs in
          let? lo := idxmin named in
          let? lov := qmin costs in
          let avg := qmean costs in
          let? derby :=
            match find_derby s with
            | Some e =>
                let dc := s_cost e in
                (* [derby_cost] and [national_avg] are Python floats *)
                let? vs := py_div (dc - avg) avg in
                Ok (Some (mkDerby (Fin dc) (Fin (vs * 100))
                                  (Fin (percentile_of costs dc))))
            | None => Ok None
            end in
          Ok (set_regional a
                (mkRegional (length s) hi (Fin hiv) lo (Fin lov) (Fin (qsum costs))
                            (Fin (qsum (map s_items s))) (Fin avg)
                            (Fin (qmedian costs)) derby))
      end in
    Ok (add_source a "OpenPrescribing ICB data (12 months)")
  else Ok a.

(** [groupby(key)['actual_cost'].mean()] over (key, cost) pairs. *)
Definition group_mean (l : list (Z * Q)) : list (Z * Q) :=
  map (fun k => (k, qmean (map snd (filter (fun kv => Z.eqb (fst kv) k) l))))
      (group_keys Z.eqb Z.leb (map fst l)).

(** [df['date'].dt.month] and [.dt.quarter] of one row; NaT gives no key. *)
Definition month_quarter (r : row) : outcome (option (Z * Z)) :=
  match row_get "date" r with
  | CTime t => Ok (Some (month_of t, quarter_of t))
  | CNaT => Ok None
  | CJ _ => Raise AttributeError
  end.

Fixpoint keyed_costs (mq : list (option (Z * Z))) (costs : list Q)
  : list (Z * Z * Q) :=
  match mq, costs with
  | Some (m, q) :: mq', c :: costs' => (m, q, c) :: keyed_costs mq' costs'
  | None :: mq', _ :: costs' => keyed_costs mq' costs'
  | _, _ => []
  end.

(** The per-month averages [monthly_avg]. *)
Definition monthly_avg (mq : list (option (Z * Z))) (costs : list Q) : list (Z * Q) :=
  group_mean (map (fun e => (fst (fst e), snd e)) (keyed_costs mq costs)).
Definition quarterly_avg (mq : list (option (Z * Z))) (costs : list Q) : list (Z * Q) :=
  group_mean (map (fun e => (snd (fst e), snd e)) (keyed_costs mq costs)).

(** [float(((monthly_avg.max() - monthly_avg.min()) / monthly_avg.mean()) * 100)]. *)
Definition seasonal_variation (ms : list (Z * Q)) : outcome num :=
  let vals := map snd ms in
  let? mx := qmax vals in
  let? mn := qmin vals in
  Ok (times100 (fdiv (mx - mn) (qmean vals))).

(** Block 3 of [get_enhanced_drug_analysis]: seasonal analysis. *)
Definition seasonal_block (a : analysis) (trend_df : frame) : outcome analysis :=
  if negb (frame_empty trend_df) && Nat.leb 12 (length (rows trend_df))
     && has_col "date" trend_df then
    let? mq := map_outcome month_quarter (rows trend_df) in
    if has_col "actual_cost" trend_df then
      let? costs := num_column trend_df "actual_cost" in
      let ms := monthly_avg mq costs in
      let qs := quarterly_avg mq costs in
      let? hm := idxmax ms in
      let? lm := idxmin ms in
      let? hq := idxmax qs in
      let? sv := seasonal_variation ms in
      Ok (set_seasonal a (mkSeasonal hm lm hq sv))
    else Ok a
  else Ok a.

Close Scope Q_scope.

(** ** [get_enhanced_drug_analysis] *)

Definition initial_analysis (drug_name : string) (clock : Z) : analysis :=
  mkAnalysis drug_name (isoformat clock) [] None None None.

(** The derivation part of [get_enhanced_drug_analysis]: the three blocks run
    on the fetched frames, with [clock] the reading of [datetime.now()] taken
    for ["analysis_date"]. *)
Definition derive (drug_name : string) (clock : Z) (trend_df icb_df : frame)
  : outcome analysis :=
  let? a := trend_block (initial_analysis drug_name clock) trend_df in
  let? a := regional_block a icb_df in
  seasonal_block a trend_df.

(** [get_enhanced_drug_analysis(drug_name, months)], fetches interleaved
    with the blocks as in the source. *)
Definition get_enhanced_drug_analysis (e : env) (drug_name : string) (months : pyval)
  : outcome analysis :=
  let a := initial_analysis drug_name (now e) in
  let? trend_df := get_total_spending_trend e drug_name months in
  let? a := trend_block a trend_df in
  let? icb_df := get_drug_spending_by_icb e drug_name (PInt 12) in
  let? a := regional_block a icb_df in
  seasonal_block a trend_df.

(** ** [get_related_drugs_context] *)

Record related_context : Type := mkRelated {
  bnf_chapter : string;
  related_drugs : list (string * string * string);   (* name, bnf_code, category *)
  bnf_categories : list (string * string)
}.

Fixpoint collect_related (chapter bnf_code : string)
         (d : list (string * (string * string))) : list (string * string * string) :=
  match d with
  | [] => []
  | (name, (code, category)) :: d' =>
      if str_prefix chapter code && negb (String.eqb code bnf_code)
      then (name, code, category) :: collect_related chapter bnf_code d'
      else collect_related chapter bnf_code d'
  end.

Definition get_related_drugs_context (bnf_code : string) : related_context :=
  let chapter := str_take 2 bnf_code in
  mkRelated chapter (firstn 5 (collect_related chapter bnf_code get_bnf_lookup))
            get_bnf_categories.

(** ** The narrative context ([st.session_state.comprehensive_context]) *)

(** The UTF-8 pound sign. *)
Definition pound : string :=
  String (ascii_of_nat 194) (String (ascii_of_nat 163) EmptyString).

Definition get_or (k dflt : string) (d : list (string * string)) : string :=
  match dict_get k d with Some v => v | None => dflt end.

Section Context.

(** Python's float formatting: [format(x, ',.0f')], [format(x, '+.1f')] and
    [format(x, '.1f')]. *)
Variable fmt_comma0 : num -> string.
Variable fmt_signed1 : num -> string.
Variable fmt_1f : num -> string.

(** The lines of the f-string (lines 538 to 568), one list element each. *)
Definition context_lines (drug_name bnf_code category : string)
           (rc : related_context) (ea : analysis) : list string :=
  let td := a_trend_data ea in
  let rd := a_regional_data ea in
  let sp := a_seasonal_patterns ea in
  [ "";
    "Comprehensive Analysis for " ++ py_title drug_name ++ ":";
    "";
    "DRUG INFORMATION:";
    "- BNF Code: " ++ bnf_code;
    "- Category: " ++ category;
    "- BNF Chapter: " ++ bnf_chapter rc ++ " - "
      ++ get_or (bnf_chapter rc) "Unknown" (bnf_categories rc);
    "";
    "SPENDING TRENDS:";
    match td with
    | Some t => "- Data Period: " ++ date_range t
    | None => "- No trend data available" end;
    match td with
    | Some t => "- Latest Monthly Cost: " ++ pound ++ fmt_comma0 (latest_cost t)
    | None => "" end;
    match td with
    | Some t => "- Latest Monthly Items: " ++ fmt_comma0 (latest_items t)
    | None => "" end;
    match option_map mom_change_pct td with
    | Some (Some x) => "- Month-on-Month Change: " ++ fmt_signed1 x ++ "%"
    | _ => "" end;
    match option_map yoy_change_pct td with
    | Some (Some x) => "- Year-on-Year Change: " ++ fmt_signed1 x ++ "%"
    | _ => "" end;
    match option_map overall_trend td with
    | Some (Some s) => "- Overall Trend: " ++ py_title s
    | _ => "" end;
    "";
    "REGIONAL ANALYSIS:";
    match rd with
    | Some r => "- Total ICBs: " ++ py_str_int (Z.of_nat (total_icbs r))
    | None => "- No regional data available" end;
    match rd with
    | Some r => "- Highest Spending ICB: " ++ highest_spending_icb r ++ " ("
                ++ pound ++ fmt_comma0 (highest_spending_amount r) ++ ")"
    | None => "" end;
    match rd with
    | Some r => "- Lowest Spending ICB: " ++ lowest_spending_icb r ++ " ("
                ++ pound ++ fmt_comma0 (lowest_spending_amount r) ++ ")"
    | None => "" end;
    match rd with
    | Some r => "- National Average ICB Cost: " ++ pound ++ fmt_comma0 (average_icb_cost r)
    | None => "" end;
    match option_map derby_vs_national rd with
    | Some (Some d) => "- Derby vs National Average: " ++ fmt_signed1 (vs_average_pct d)
                       ++ "% (" ++ pound ++ fmt_comma0 (derby_cost d) ++ ")"
    | _ => "" end;
    "";
    "SEASONAL PATTERNS:";
    match sp with
    | Some s => "- Highest Spending Month: " ++ py_str_int (highest_spending_month s)
    | None => "- Insufficient data for seasonal analysis" end;
    match sp with
    | Some s => "- Seasonal Variation: " ++ fmt_1f (seasonal_variation_pct s) ++ "%"
    | None => "" end;
    "";
    "RELATED DRUGS IN SAME CATEGORY:";
    join ", " (map (fun d => py_title (fst (fst d))) (firstn 3 (related_drugs rc)));
    "";
    "DATA SOURCES:";
    join ", " (data_sources ea);
    "" ].

Definition comprehensive_context (drug_name bnf_code category : string)
           (rc : related_context) (ea : analysis) : string :=
  join nl (context_lines drug_name bnf_code category rc ea).

(** The search flow of the page (lines 474 to 569): resolve, take the first
    match, analyse, build the context. The debug requests of lines 487 to 518
    run inside [try ... except Exception] and only write output, so they are
    left out. [None] is the "no prescribing data found" branch. *)
Definition consolidated_pipeline (e : env) (query : string)
  : outcome (option (analysis * string)) :=
  let? matches := search_drugs e query in
  match matches with
  | [] => Ok None
  | (drug_name, bnf_code, category) :: _ =>
      (* [get_enhanced_drug_analysis(bnf_code, drug_name)]: [drug_name]
         lands in the [months] parameter *)
      let? enhanced_analysis := get_enhanced_drug_analysis e bnf_code (PStr drug_name) in
      let related := get_related_drugs_context bnf_code in
      let? enhanced_analysis := get_enhanced_drug_analysis e bnf_code (PStr drug_name) in
      let related := get_related_drugs_context bnf_code in
      Ok (Some (enhanced_analysis,
                comprehensive_context drug_name bnf_code category related enhanced_analysis))
  end.

End Context.

(** ** [get_drug_suggestions] *)

Fixpoint insert_str (x : string) (l : list string) : list string :=
  match l with
  | [] => [x]
  | y :: l' => if str_leb y x then y :: insert_str x l' else x :: l
  end.

(** [sorted(...)] of a list of strings (a stable insertion sort). *)
Definition sort_str (l : list string) : list string :=
  fold_left (fun acc x => insert_str x acc) l [].

(** [get_drug_suggestions(query)]: names starting with the query, then, when
    fewer than five, names containing it; sorted, first eight. *)
Definition get_drug_suggestions (query : string) : list string :=
  if String.eqb query "" || Nat.ltb (String.length query) 2 then [] else
  let bnf_lookup := get_bnf_lookup in
  let query_lower := py_lower query in
  let suggestions :=
    fold_left (fun acc drug_name =>
                 if str_prefix query_lower (py_lower drug_name)
                 then app acc [drug_name] else acc)
              (map fst bnf_lookup) [] in
  let suggestions :=
    if Nat.ltb (length suggestions) 5 then
      fold_left (fun acc drug_name =>
                   if py_in query_lower (py_lower drug_name)
                      && negb (existsb (String.eqb drug_name) acc)
                   then app acc [drug_name] else acc)
                (map fst bnf_lookup) suggestions
    else suggestions in
  firstn 8 (sort_str suggestions).

(** ** Helpers for the statements *)

(** The value of field [c] of a JSON record, [None] (a missing cell) when
    absent. *)
Definition record_get (c : string) (o : list (string * json)) : json :=
  match dict_get c o with Some j => j | None => JNull end.

Definition set_date (s : string) (a : analysis) : analysis :=
  mkAnalysis (a_drug_name a) s (data_sources a) (a_trend_data a)
             (a_regional_data a) (a_seasonal_patterns a).

Definition outcome_map {A B : Type} (f : A -> B) (m : outcome A) : outcome B :=
  let? x := m in Ok (f x).

(** The upstream source is unreachable for every request. *)
Definition offline (e : env) : Prop :=
  forall endpoint code, upstream e endpoint code = RespRequestException.

(** The upstream source fails or yields no data for this request. *)
Definition no_data (e : env) (endpoint code : string) : Prop :=
  upstream e endpoint code = RespRequestException
  \/ exists j, upstream e endpoint code = RespJson j /\ py_truthy j = false.

(** Case-insensitive substring matching of the query against the table's
    display names, in table order. *)
Definition table_matches (q : string) : list drug :=
  map (fun en => (fst en, fst (snd en), snd (snd en)))
      (filter (fun en => py_in (py_lower q) (py_lower (fst en))) get_bnf_lookup).


Definition seasonal_variation_of (m : outcome analysis) : option num :=
  match m with
  | Ok a => option_map seasonal_variation_pct (a_seasonal_patterns a)
  | _ => None
  end.

(** ** Concrete inputs *)

(** 2024-01-15T12:00:00. *)
Definition jan_2024 : Z := 1705320000%Z.

Definition env_offline : env := mkEnv (fun _ _ => RespRequestException) jan_2024.

Definition spending_row (d : string) (c : Z) : json :=
  JObj [("date", JStr d); ("actual_cost", JNum (inject_Z c)); ("items", JNum 5)].

(** Twelve monthly rows of 2023, all with cost [c]. *)
Definition year_2023 (c : Z) : json :=
  JArr (map (fun d => spending_row d c)
            ["2023-01-01"; "2023-02-01"; "2023-03-01"; "2023-04-01";
             "2023-05-01"; "2023-06-01"; "2023-07-01"; "2023-08-01";
             "2023-09-01"; "2023-10-01"; "2023-11-01"; "2023-12-01"]).

(** The national series answers twelve periods; the ICB endpoint is down. *)
Definition env_year (c : Z) : env :=
  mkEnv (fun endpoint _ => if String.eqb endpoint "spending"
                           then RespJson (year_2023 c) else RespRequestException)
        jan_2024.

Definition frame_year (c : Z) : frame :=
  match get_total_spending_trend (env_year c) "0212000AA" (PInt 36) with
  | Ok df => df
  | _ => empty_frame
  end.

(** Thirteen monthly rows, 2023-01 to 2024-01, all with cost [c]. *)
Definition months_13 (c : Z) : json :=
  JArr (map (fun d => spending_row d c)
            ["2023-01-01"; "2023-02-01"; "2023-03-01"; "2023-04-01";
             "2023-05-01"; "2023-06-01"; "2023-07-01"; "2023-08-01";
             "2023-09-01"; "2023-10-01"; "2023-11-01"; "2023-12-01";
             "2024-01-01"]).

Definition env_13 (c : Z) : env :=
  mkEnv (fun endpoint _ => if String.eqb endpoint "spending"
                           then RespJson (months_13 c) else RespRequestException)
        jan_2024.

Definition frame_13 (c : Z) : frame :=
  match get_total_spending_trend (env_13 c) "0212000AA" (PInt 36) with
  | Ok df => df
  | _ => empty_frame
  end.

(** The month/quarter keys and the costs of [frame_year 100]. *)
Definition year_keys : list (option (Z * Z)) :=
  match map_outcome month_quarter (rows (frame_year 100)) with
  | Ok m => m
  | _ => []
  end.

Definition year_costs : list Q :=
  match num_column (frame_year 100) "actual_cost" with
  | Ok c => c
  | _ => []
  end.

(** The national series answers one period inside the 30-day window of a
    one-month probe. *)
Definition env_recent : env :=
  mkEnv (fun endpoint _ => if String.eqb endpoint "spending"
                           then RespJson (JArr [spending_row "2024-01-01" 100])
                           else RespRequestException)
        jan_2024.

Definition frame_recent : frame :=
  match get_total_spending_trend env_recent "0212000AA0" (PInt 1) with
  | Ok df => df
  | _ => empty_frame
  end.

Definition icb_row (d r : string) (c : Z) : json :=
  JObj [("date", JStr d); ("row_name", JStr r); ("actual_cost", JNum (inject_Z c));
        ("items", JNum 1)].

Definition icb_payload : json :=
  JArr [icb_row "2023-12-01" "NHS Derby and Derbyshire ICB" 300;
        icb_row "2023-12-01" "NHS Leeds ICB" 100;
        icb_row "2023-11-01" "NHS Leeds ICB" 150;
        icb_row "2023-12-01" "NHS Kent ICB" 90].

Definition env_icb : env :=
  mkEnv (fun endpoint _ => if String.eqb endpoint "spending_by_org"
                           then RespJson icb_payload else RespRequestException)
        jan_2024.

Definition frame_icb : frame :=
  match get_drug_spending_by_icb env_icb "0212000AA" (PInt 12) with
  | Ok df => df
  | _ => empty_frame
  end.


(** A 200 answer whose JSON body is an object of scalars. *)
Definition env_error_object : env :=
  mkEnv (fun _ _ => RespJson (JObj [("detail", JStr "Not found.")])) jan_2024.

(** Two records, the second dated 30 February, from every endpoint. *)
Definition bad_date_payload : json :=
  JArr [spending_row "2023-01-01" 100; spending_row "2023-02-30" 100].

Definition env_bad_date : env := mkEnv (fun _ _ => RespJson bad_date_payload) jan_2024.

(** An empty JSON list from every endpoint. *)
Definition env_empty_list : env := mkEnv (fun _ _ => RespJson (JArr [])) jan_2024.

(** The regional block run on [frame_icb], and its regional and local
    records. *)
Definition analysis_icb : analysis :=
  match regional_block (initial_analysis "Sertraline" jan_2024) frame_icb with
  | Ok a => a
  | _ => initial_analysis "Sertraline" jan_2024
  end.

Definition regional_icb : regional_data :=
  match a_regional_data analysis_icb with
  | Some r => r
  | None => mkRegional 0 "" NaN "" NaN NaN NaN NaN NaN None
  end.


(** * Properties *)

(** ** General lemmas *)

Lemma map_outcome_length {A B : Type} (f : A -> outcome B) :
  forall l ys, map_outcome f l = Ok ys -> length ys = length l.
Proof.
  induction l as [|x l IH]; simpl; intros ys H.
  - injection H as <-. reflexivity.
  - destruct (f x) as [y| |]; simpl in H; try discriminate.
    destruct (map_outcome f l) as [ys'| |] eqn:E; simpl in H; try discriminate.
    injection H as <-. simpl. f_equal. apply IH. reflexivity.
Qed.

Lemma num_column_length :
  forall df c xs, num_column df c = Ok xs -> length xs = length (rows df).
Proof.
  unfold num_column, column. intros df c xs H.
  destruct (has_col c df); simpl in H; [|discriminate].
  rewrite (map_outcome_length _ _ _ H). apply length_map.
Qed.

Lemma frame_nonempty :
  forall df c, has_col c df = true -> rows df <> [] -> frame_empty df = false.
Proof.
  unfold frame_empty, has_col. intros [cs rs] c Hc Hr; simpl in *.
  destruct cs; [discriminate|]. destruct rs; [contradiction|reflexivity].
Qed.

(** ** C1 *)

(** C1 (code_bug). With exactly twelve periods and an [actual_cost] column,
    the year-over-year branch is entered ([len(trend_df) >= 12]) and reads
    [iloc[-13]], one row before the first: the trend block raises
    [IndexError] instead of omitting ["yoy_change_pct"]. *)
Theorem trend_block_twelve_periods_raises :
  forall a df dr li costs,
    length (rows df) = 12%nat ->
    has_col "actual_cost" df = true ->
    date_range_of df = Ok dr ->
    latest_or_zero df "items" = Ok li ->
    num_column df "actual_cost" = Ok costs ->
    trend_block a df = Raise IndexError.
Proof.
  intros a df dr li costs Hlen Hcol Hdr Hli Hcosts.
  assert (Hne : frame_empty df = false).
  { apply (frame_nonempty df "actual_cost"); [exact Hcol|].
    intro E. rewrite E in Hlen. discriminate. }
  pose proof (num_column_length _ _ _ Hcosts) as Hcl. rewrite Hlen in Hcl.
  assert (Hk : forall k, iloc_neg df "actual_cost" k
                         = if Nat.leb k 12 then Ok (nth (12 - k) costs 0%Q)
                           else Raise IndexError).
  { intro k. unfold iloc_neg. rewrite Hcosts. cbn [bind]. rewrite Hcl. reflexivity. }
  assert (Hlc : latest_or_zero df "actual_cost" = Ok (Fin (nth 11 costs 0%Q))).
  { unfold latest_or_zero. rewrite Hcol, Hk. reflexivity. }
  unfold trend_block. rewrite Hne, Hdr, Hlen. cbn [bind negb].
  rewrite Hlc. cbn [bind]. rewrite Hli. cbn [bind Nat.leb andb]. rewrite Hcol.
  rewrite !Hk. reflexivity.
Qed.

Lemma trend_block_twelve_periods_raises_witness :
  length (rows (frame_year 100)) = 12%nat /\
  trend_block (initial_analysis "0212000AA" jan_2024) (frame_year 100) = Raise IndexError.
Proof.
  split; [vm_compute; reflexivity|].
  apply (trend_block_twelve_periods_raises _ _ "2023-01 to 2023-12" (Fin 5)
           (repeat (inject_Z 100) 12)); vm_compute; reflexivity.
Defined.

(** ** C2 *)

(** C2 (code_bug). When the national series answers with data, the page's
    call [get_enhanced_drug_analysis(bnf_code, drug_name)] passes the drug
    name as [months]; [timedelta(days=months*30)] then raises [TypeError],
    which reaches the presentation layer. *)
Theorem pipeline_raises_with_data :
  forall f1 f2 f3,
    consolidated_pipeline f1 f2 f3 (env_year 100) "adalimumab" = Raise TypeError.
Proof. intros. vm_compute. reflexivity. Qed.

(** ** C3 *)

(** C3 (counterexample). Two derivations on the same (empty) record sets,
    run at two clock readings, differ in ["analysis_date"]. *)
Lemma derive_depends_on_clock :
  derive "0212000AA" jan_2024 empty_frame empty_frame
  <> derive "0212000AA" (jan_2024 + 1) empty_frame empty_frame.
Proof. vm_compute. intro H. discriminate H. Qed.

(** Case analysis on every [outcome] and [if] the goal scrutinises. *)
Ltac split_outcomes a :=
  unfold bind, outcome_map;
  repeat (cbv beta iota zeta;
          match goal with
          | |- context [match ?x with Ok _ => _ | Raise _ => _ | OutOfModel => _ end] =>
              lazymatch x with context [a] => fail | _ => destruct x end
          | |- context [match ?x with [] => _ | _ :: _ => _ end] =>
              lazymatch x with context [a] => fail | _ => destruct x end
          | |- context [if ?b then _ else _] =>
              lazymatch b with context [a] => fail | _ => destruct b end
          end);
  try reflexivity.

Lemma trend_block_set_date :
  forall s a df,
    trend_block (set_date s a) df = outcome_map (set_date s) (trend_block a df).
Proof.
  intros s a df. unfold trend_block.
  destruct (frame_empty df); [reflexivity|]. split_outcomes a.
Qed.

Lemma regional_block_set_date :
  forall s a df,
    regional_block (set_date s a) df = outcome_map (set_date s) (regional_block a df).
Proof.
  intros s a df. unfold regional_block. split_outcomes a.
Qed.

Lemma seasonal_block_set_date :
  forall s a df,
    seasonal_block (set_date s a) df = outcome_map (set_date s) (seasonal_block a df).
Proof.
  intros s a df. unfold seasonal_block. split_outcomes a.
Qed.

Lemma derive_stamp :
  forall d c tr icb,
    derive d c tr icb = outcome_map (set_date (isoformat c)) (derive d 0 tr icb).
Proof.
  intros d c tr icb. unfold derive.
  change (initial_analysis d c) with (set_date (isoformat c) (initial_analysis d 0)).
  rewrite trend_block_set_date.
  destruct (trend_block (initial_analysis d 0) tr) as [a1| |]; cbn [bind outcome_map];
    try reflexivity.
  rewrite regional_block_set_date.
  destruct (regional_block a1 icb) as [a2| |]; cbn [bind outcome_map]; try reflexivity.
  apply seasonal_block_set_date.
Qed.

Lemma set_date_twice : forall s t a, set_date s (set_date t a) = set_date s a.
Proof. intros s t [n d ds tr rg se]. reflexivity. Qed.

(** C3 (amended). The derivation is a function of the record sets and of the
    clock reading: runs at two readings agree on every field except
    ["analysis_date"], which holds the ISO form of the reading. *)
Theorem derive_clock_only_in_date :
  forall d c1 c2 tr icb,
    outcome_map (set_date "") (derive d c1 tr icb)
    = outcome_map (set_date "") (derive d c2 tr icb)
    /\ (forall a, derive d c1 tr icb = Ok a -> analysis_date a = isoformat c1).
Proof.
  intros d c1 c2 tr icb. rewrite (derive_stamp d c1), (derive_stamp d c2). split.
  - destruct (derive d 0 tr icb) as [a| |]; cbn [outcome_map bind]; [|reflexivity..].
    rewrite !set_date_twice. reflexivity.
  - intros a H. destruct (derive d 0 tr icb) as [a0| |]; cbn [outcome_map bind] in H;
      try discriminate.
    injection H as <-. destruct a0. reflexivity.
Qed.

(** ** Fetchers *)

Lemma trend_fetch_no_data :
  forall e code months,
    no_data e "spending" code -> get_total_spending_trend e code months = Ok empty_frame.
Proof.
  unfold get_total_spending_trend, get_openprescribing_data.
  intros e code months [H | [j [H Hj]]]; rewrite H; [reflexivity|].
  rewrite Hj. reflexivity.
Qed.

Lemma icb_fetch_no_data :
  forall e code months,
    no_data e "spending_by_org" code
    -> get_drug_spending_by_icb e code months = Ok empty_frame.
Proof.
  unfold get_drug_spending_by_icb, get_openprescribing_data.
  intros e code months [H | [j [H Hj]]]; rewrite H; [reflexivity|].
  rewrite Hj. reflexivity.
Qed.

Lemma to_datetime_cell_raise :
  forall c ex, to_datetime_cell c = Raise ex -> ex = ValueError.
Proof.
  intros [j|t|] ex H; cbn [to_datetime_cell] in H; try discriminate H.
  destruct j as [| | |s| |]; try discriminate H.
  destruct (parse_iso_date s) as [[t|]|]; try discriminate H.
  injection H as <-. reflexivity.
Qed.

Lemma map_outcome_value_error {A B : Type} (f : A -> outcome B) :
  forall l,
    Forall (fun x => f x <> OutOfModel /\ forall ex, f x = Raise ex -> ex = ValueError) l ->
    Exists (fun x => f x = Raise ValueError) l ->
    map_outcome f l = Raise ValueError.
Proof.
  induction l as [|x l IH]; intros Hall Hex; [inversion Hex|].
  inversion Hall as [|? ? [Hno Hr] Hall']. subst.
  cbn [map_outcome].
  destruct (f x) as [y|ex|] eqn:Ef; [|rewrite (Hr ex eq_refl); reflexivity|contradiction].
  inversion Hex as [? ? Hx|? ? Hex']; subst; [rewrite Ef in Hx; discriminate Hx|].
  cbn [bind]. rewrite (IH Hall' Hex'). reflexivity.
Qed.

Lemma dict_get_map_cell :
  forall k (o : list (string * json)),
    dict_get k (map (fun kv => (fst kv, CJ (snd kv))) o)
    = match dict_get k o with Some j => Some (CJ j) | None => None end.
Proof.
  intros k o. induction o as [|[k' v] o IH]; [reflexivity|].
  cbn [map dict_get fst snd]. destruct (String.eqb k k'); [reflexivity|exact IH].
Qed.

Lemma row_get_record :
  forall c o, row_get c (map (fun kv => (fst kv, CJ (snd kv))) o) = CJ (record_get c o).
Proof.
  intros c o. unfold row_get, record_get. rewrite dict_get_map_cell.
  destruct (dict_get c o); reflexivity.
Qed.

Lemma dict_get_key :
  forall k (o : list (string * json)) v, dict_get k o = Some v -> In k (map fst o).
Proof.
  intros k o v. induction o as [|[k' v'] o IH]; cbn [dict_get map fst]; [discriminate|].
  destruct (String.eqb k k') eqn:E; intro H.
  - left. symmetry. apply String.eqb_eq. exact E.
  - right. exact (IH H).
Qed.

Lemma add_keys_mono :
  forall o ks k, In k ks -> In k (add_keys ks o).
Proof.
  unfold add_keys. induction o as [|kv o IH]; intros ks k H; [exact H|].
  cbn [fold_left]. apply IH.
  destruct (existsb (String.eqb (fst kv)) ks); [exact H|apply in_or_app; left; exact H].
Qed.

Lemma add_keys_has :
  forall o ks k, In k (map fst o) -> In k (add_keys ks o).
Proof.
  unfold add_keys. induction o as [|kv o IH]; intros ks k H; [destruct H|].
  cbn [fold_left]. destruct H as [<-|H]; [|apply IH; exact H].
  fold (add_keys (if existsb (String.eqb (fst kv)) ks then ks else app ks [fst kv]) o).
  apply add_keys_mono.
  destruct (existsb (String.eqb (fst kv)) ks) eqn:E.
  - apply existsb_exists in E. destruct E as [k' [Hk' Ek']].
    apply String.eqb_eq in Ek'. rewrite Ek'. exact Hk'.
  - apply in_or_app. right. left. reflexivity.
Qed.

Lemma fold_add_keys_has :
  forall os acc o k, In o os -> In k (map fst o) -> In k (fold_left add_keys os acc).
Proof.
  induction os as [|o' os IH]; intros acc o k Ho Hk; [destruct Ho|].
  cbn [fold_left]. destruct Ho as [<-|Ho]; [|exact (IH _ o k Ho Hk)].
  assert (G : forall os acc, In k acc -> In k (fold_left add_keys os acc)).
  { induction os0 as [|o'' os0 IH0]; intros acc' H; [exact H|].
    cbn [fold_left]. apply IH0. apply add_keys_mono. exact H. }
  apply G. apply add_keys_has. exact Hk.
Qed.

Lemma all_objects_nonnil :
  forall l os, all_objects l = Some os -> os <> [] -> l <> [].
Proof. intros [|j l] os H Hne; [injection H as <-; contradiction Hne; reflexivity|discriminate]. Qed.

(** A list of records, one with an ISO-shaped date that is no calendar date
    and all dates within the model: [pd.to_datetime] raises [ValueError]. *)
Lemma records_bad_date :
  forall l os,
    all_objects l = Some os ->
    Forall (fun o => to_datetime_cell (CJ (record_get "date" o)) <> OutOfModel) os ->
    Exists (fun o => exists s, record_get "date" o = JStr s /\ parse_iso_date s = Some None) os ->
    exists df, frame_of_json (JArr l) = Ok df /\ py_truthy (JArr l) = true
      /\ negb (frame_empty df) && has_col "date" df = true
      /\ to_datetime_col df = Raise ValueError.
Proof.
  intros l os Hl Hall Hex.
  assert (Hne : os <> []) by (intro E; subst os; inversion Hex).
  destruct (proj1 (Exists_exists _ _) Hex) as [o [Ho [s [Hs Hp]]]].
  assert (Hk : In "date" (map fst o)).
  { unfold record_get in Hs. destruct (dict_get "date" o) as [j|] eqn:Ed;
      [exact (dict_get_key _ _ _ Ed)|discriminate Hs]. }
  eexists. split; [cbn [frame_of_json]; rewrite Hl; reflexivity|].
  split.
  { cbn [py_truthy]. destruct l; [contradiction (all_objects_nonnil [] os Hl Hne); reflexivity|reflexivity]. }
  split.
  - unfold frame_empty, has_col. cbn [cols rows].
    assert (Hc : In "date" (fold_left add_keys os [])) by exact (fold_add_keys_has os [] o _ Ho Hk).
    destruct (fold_left add_keys os []) as [|c cs] eqn:Ec; [destruct Hc|].
    destruct os as [|o1 os1]; [contradiction|]. cbn [map negb andb].
    apply existsb_exists. exists "date". split; [exact Hc|reflexivity].
  - unfold to_datetime_col. cbn [rows].
    rewrite map_outcome_value_error; [reflexivity| |].
    + apply Forall_map. rewrite Forall_forall in Hall |- *. intros o' Ho'.
      rewrite row_get_record. specialize (Hall o' Ho').
      split.
      * destruct (to_datetime_cell _); [discriminate|discriminate|contradiction].
      * intros ex. destruct (to_datetime_cell _) eqn:Et; cbn [bind]; intro H;
          [discriminate H|injection H as <-; exact (to_datetime_cell_raise _ _ Et)|discriminate H].
    + apply Exists_map. apply Exists_exists. exists o. split; [exact Ho|].
      rewrite row_get_record, Hs. cbn [to_datetime_cell]. rewrite Hp. reflexivity.
Qed.

(** C6 (counterexample). A JSON object of scalars answered with status 200
    makes [pd.DataFrame(data)] raise [ValueError] in both fetchers. *)
Lemma fetchers_raise_on_object_payload :
  get_total_spending_trend env_error_object "0212000AA" (PInt 24) = Raise ValueError
  /\ get_drug_spending_by_icb env_error_object "0212000AA" (PInt 12) = Raise ValueError.
Proof. split; vm_compute; reflexivity. Qed.

(** C6 (amended). When the request fails with a requests exception
    (unreachable, timeout, HTTP error status, body that is not JSON) or the
    answer is a falsy JSON value, both fetchers return the empty frame. A
    malformed answer is not caught: a non-empty JSON object of scalars makes
    [pd.DataFrame] raise [ValueError], and a list of records one of whose
    dates has the ISO shape but is no calendar date (the other dates being
    ISO dates or missing) makes [pd.to_datetime] raise [ValueError]; both
    errors reach the caller. *)
Theorem fetchers_empty_on_failure :
  forall e code months,
    (no_data e "spending" code -> get_total_spending_trend e code months = Ok empty_frame)
    /\ (no_data e "spending_by_org" code
        -> get_drug_spending_by_icb e code months = Ok empty_frame)
    /\ (forall kvs, kvs <> [] -> forallb (fun kv => is_scalar (snd kv)) kvs = true ->
          (upstream e "spending" code = RespJson (JObj kvs)
           -> get_total_spending_trend e code months = Raise ValueError)
          /\ (upstream e "spending_by_org" code = RespJson (JObj kvs)
              -> get_drug_spending_by_icb e code months = Raise ValueError))
    /\ (forall l os,
          all_objects l = Some os ->
          Forall (fun o => to_datetime_cell (CJ (record_get "date" o)) <> OutOfModel) os ->
          Exists (fun o => exists s, record_get "date" o = JStr s
                                     /\ parse_iso_date s = Some None) os ->
          (upstream e "spending" code = RespJson (JArr l)
           -> get_total_spending_trend e code months = Raise ValueError)
          /\ (upstream e "spending_by_org" code = RespJson (JArr l)
              -> get_drug_spending_by_icb e code months = Raise ValueError)).
Proof.
  intros e code months.
  split; [apply trend_fetch_no_data|]. split; [apply icb_fetch_no_data|]. split.
  - intros kvs Hne Hs.
    assert (Hf : frame_of_json (JObj kvs) = Raise ValueError).
    { destruct kvs as [|kv kvs]; [contradiction|]. cbn [frame_of_json].
      rewrite Hs. reflexivity. }
    assert (Ht : py_truthy (JObj kvs) = true).
    { destruct kvs as [|kv kvs]; [contradiction|reflexivity]. }
    split; intro Hu.
    + unfold get_total_spending_trend, get_openprescribing_data. rewrite Hu, Ht, Hf.
      reflexivity.
    + unfold get_drug_spending_by_icb, get_openprescribing_data. rewrite Hu, Ht, Hf.
      reflexivity.
  - intros l os Hl Hall Hex.
    destruct (records_bad_date l os Hl Hall Hex) as [df [Hf [Ht [Hg Hd]]]].
    split; intro Hu.
    + unfold get_total_spending_trend, get_openprescribing_data.
      rewrite Hu, Ht, Hf. cbn [bind]. rewrite Hg, Hd. reflexivity.
    + unfold get_drug_spending_by_icb, get_openprescribing_data.
      rewrite Hu, Ht, Hf. cbn [bind]. rewrite Hg, Hd. reflexivity.
Qed.

Lemma fetchers_empty_on_failure_witness :
  get_total_spending_trend env_offline "0212000AA" (PInt 24) = Ok empty_frame
  /\ get_drug_spending_by_icb env_empty_list "0212000AA" (PInt 12) = Ok empty_frame
  /\ get_drug_spending_by_icb env_error_object "0212000AA" (PInt 12) = Raise ValueError
  /\ get_total_spending_trend env_bad_date "0212000AA" (PInt 24) = Raise ValueError.
Proof.
  split; [|split; [|split]].
  - apply (fetchers_empty_on_failure env_offline "0212000AA" (PInt 24)).
    left. reflexivity.
  - apply (fetchers_empty_on_failure env_empty_list "0212000AA" (PInt 12)).
    right. exists (JArr []). split; reflexivity.
  - destruct (fetchers_empty_on_failure env_error_object "0212000AA" (PInt 12))
      as [_ [_ [H _]]].
    apply (H [("detail", JStr "Not found.")]); [discriminate|reflexivity|reflexivity].
  - destruct (fetchers_empty_on_failure env_bad_date "0212000AA" (PInt 24))
      as [_ [_ [_ H]]].
    apply (H [spending_row "2023-01-01" 100; spending_row "2023-02-30" 100]
             [[("date", JStr "2023-01-01"); ("actual_cost", JNum (inject_Z 100));
               ("items", JNum 5)];
              [("date", JStr "2023-02-30"); ("actual_cost", JNum (inject_Z 100));
               ("items", JNum 5)]]).
    + reflexivity.
    + repeat constructor; vm_compute; discriminate.
    + apply Exists_cons_tl. apply Exists_cons_hd. exists "2023-02-30".
      split; vm_compute; reflexivity.
    + reflexivity.
Defined.

(** ** The offline scenario *)

(** Both fetched frames empty: the analysis keeps only its header. *)
Lemma enhanced_empty :
  forall e d months df1 df2,
    get_total_spending_trend e d months = Ok df1 -> frame_empty df1 = true ->
    get_drug_spending_by_icb e d (PInt 12) = Ok df2 -> frame_empty df2 = true ->
    get_enhanced_drug_analysis e d months = Ok (initial_analysis d (now e)).
Proof.
  intros e d months df1 df2 H1 E1 H2 E2. unfold get_enhanced_drug_analysis.
  rewrite H1. cbn [bind]. unfold trend_block. rewrite E1. cbn [bind].
  rewrite H2. cbn [bind]. unfold regional_block. rewrite E2. cbn [negb andb].
  unfold seasonal_block. rewrite E1. reflexivity.
Qed.

Lemma search_adalimumab :
  forall e, search_drugs e "adalimumab"
            = Ok [("adalimumab", "0212000AA", "TNF Alpha Inhibitor")].
Proof. intro e. vm_compute. reflexivity. Qed.

(** C5. ["adalimumab"] resolves to [0212000AA] / ["TNF Alpha Inhibitor"]
    (for every upstream); when both frames the page fetches for it are empty
    (the source is unreachable, answers without data, or its records are
    empty), the analysis has no trend, regional or seasonal block, and the
    context carries the drug-identity block and the three no-data lines
    ["- No trend data available"], ["- No regional data available"] and
    ["- Insufficient data for seasonal analysis"]. *)
Theorem adalimumab_offline_context :
  forall f1 f2 f3 e df1 df2,
    get_total_spending_trend e "0212000AA" (PStr "adalimumab") = Ok df1 ->
    frame_empty df1 = true ->
    get_drug_spending_by_icb e "0212000AA" (PInt 12) = Ok df2 ->
    frame_empty df2 = true ->
    search_drugs e "adalimumab" = Ok [("adalimumab", "0212000AA", "TNF Alpha Inhibitor")]
    /\ exists ea ctx,
         consolidated_pipeline f1 f2 f3 e "adalimumab" = Ok (Some (ea, ctx))
         /\ a_trend_data ea = None /\ a_regional_data ea = None
         /\ a_seasonal_patterns ea = None
         /\ py_in (nl ++ "DRUG INFORMATION:" ++ nl ++ "- BNF Code: 0212000AA" ++ nl
                   ++ "- Category: TNF Alpha Inhibitor" ++ nl) ctx = true
         /\ py_in (nl ++ "- No trend data available" ++ nl) ctx = true
         /\ py_in (nl ++ "- No regional data available" ++ nl) ctx = true
         /\ py_in (nl ++ "- Insufficient data for seasonal analysis" ++ nl) ctx = true.
Proof.
  intros f1 f2 f3 e df1 df2 H1 E1 H2 E2. split; [apply search_adalimumab|].
  unfold consolidated_pipeline. rewrite search_adalimumab. cbn [bind].
  rewrite !(enhanced_empty e "0212000AA" (PStr "adalimumab") df1 df2 H1 E1 H2 E2).
  cbn [bind].
  do 2 eexists. split; [reflexivity|].
  repeat split; vm_compute; reflexivity.
Qed.

Lemma adalimumab_offline_context_witness :
  search_drugs env_empty_list "adalimumab"
  = Ok [("adalimumab", "0212000AA", "TNF Alpha Inhibitor")]
  /\ exists ea ctx,
       consolidated_pipeline (fun _ => "") (fun _ => "") (fun _ => "") env_empty_list
         "adalimumab" = Ok (Some (ea, ctx))
       /\ a_trend_data ea = None /\ a_regional_data ea = None
       /\ a_seasonal_patterns ea = None
       /\ py_in (nl ++ "DRUG INFORMATION:" ++ nl ++ "- BNF Code: 0212000AA" ++ nl
                 ++ "- Category: TNF Alpha Inhibitor" ++ nl) ctx = true
       /\ py_in (nl ++ "- No trend data available" ++ nl) ctx = true
       /\ py_in (nl ++ "- No regional data available" ++ nl) ctx = true
       /\ py_in (nl ++ "- Insufficient data for seasonal analysis" ++ nl) ctx = true.
Proof.
  apply (adalimumab_offline_context (fun _ => "") (fun _ => "") (fun _ => "")
           env_empty_list empty_frame empty_frame); vm_compute; reflexivity.
Defined.

(** ** The resolver *)

Lemma remove_ch_chars :
  forall x s c, In c (str_chars (remove_ch x s)) -> In c (str_chars s).
Proof.
  intros x s c. induction s as [|d s IH]; simpl; [tauto|].
  destruct (Ascii.eqb x d); simpl; intuition.
Qed.

Lemma strip_AZ_chars :
  forall q c, In c (str_chars (strip_AZ q)) -> In c (str_chars q).
Proof.
  unfold strip_AZ. intros q c.
  generalize (str_chars "ABCDEFGHIJKLMNOPQRSTUVWXYZ"). intro letters.
  revert q. induction letters as [|x letters IH]; simpl; intros q H; [exact H|].
  apply remove_ch_chars with (x := x). apply IH. exact H.
Qed.

Lemma isdigit_has_digit :
  forall s, py_isdigit s = true -> exists c, In c (str_chars s) /\ is_digit_ch c = true.
Proof.
  intros [|c s] H; [discriminate|]. exists c. split; [left; reflexivity|].
  simpl in H. apply andb_prop in H. apply H.
Qed.

Lemma digit_not_upper : forall c, is_digit_ch c = true -> is_upper_ch c = false.
Proof.
  unfold is_digit_ch, is_upper_ch. intros c H.
  apply andb_prop in H as [H1 H2]. apply Nat.leb_le in H1, H2.
  destruct (Nat.leb 65 (nat_of_ascii c)) eqn:E; [|reflexivity].
  apply Nat.leb_le in E. lia.
Qed.

Lemma str_map_chars :
  forall f s c, In c (str_chars s) -> In (f c) (str_chars (str_map f s)).
Proof.
  intros f s c. induction s as [|d s IH]; simpl; [tauto|].
  intros [<-|H]; [left; reflexivity|right; auto].
Qed.

Lemma str_prefix_chars :
  forall p s c, str_prefix p s = true -> In c (str_chars p) -> In c (str_chars s).
Proof.
  induction p as [|a p IH]; intros [|b s] c H Hc; simpl in *; try discriminate; try tauto.
  apply andb_prop in H as [Hab Hps]. apply Ascii.eqb_eq in Hab. subst b.
  destruct Hc as [<-|Hc]; [left; reflexivity|right; eapply IH; eauto].
Qed.

Lemma py_in_chars :
  forall p s c, py_in p s = true -> In c (str_chars p) -> In c (str_chars s).
Proof.
  intros p s c. induction s as [|b s IH]; simpl; intros H Hc.
  - rewrite orb_false_r in H. exact (str_prefix_chars p "" c H Hc).
  - apply orb_prop in H as [H|H].
    + exact (str_prefix_chars p (String b s) c H Hc).
    + right. auto.
Qed.

(** A query passing the code guard holds a digit, also once lower-cased. *)
Lemma code_query_digit :
  forall q, is_code_query q = true ->
            exists c, In c (str_chars (py_lower q)) /\ is_digit_ch c = true.
Proof.
  unfold is_code_query. intros q H. apply andb_prop in H as [_ H].
  destruct (isdigit_has_digit _ H) as [c [Hin Hd]]. exists c. split; [|exact Hd].
  apply strip_AZ_chars in Hin.
  replace c with (lower_ch c) at 1
    by (unfold lower_ch; rewrite (digit_not_upper c Hd); reflexivity).
  apply str_map_chars. exact Hin.
Qed.

Lemma table_names_no_digit :
  forallb (fun en => negb (existsb is_digit_ch (str_chars (py_lower (fst en)))))
          get_bnf_lookup = true.
Proof. vm_compute. reflexivity. Qed.

Lemma collect_matches_digit :
  forall ql d c,
    In c (str_chars ql) -> is_digit_ch c = true ->
    forallb (fun en => negb (existsb is_digit_ch (str_chars (py_lower (fst en))))) d = true ->
    collect_matches ql d = [].
Proof.
  intros ql d c Hc Hd. induction d as [|[name [code cat]] d IH]; simpl; [reflexivity|].
  intro H. apply andb_prop in H as [Hn Hrest].
  destruct (py_in ql (py_lower name)) eqn:E; [|auto].
  exfalso. pose proof (py_in_chars _ _ _ E Hc) as Hin.
  assert (Ht : existsb is_digit_ch (str_chars (py_lower name)) = true)
    by (apply existsb_exists; eauto).
  simpl in Hn. rewrite Ht in Hn. discriminate.
Qed.

Lemma code_query_no_table_match :
  forall q, is_code_query q = true -> collect_matches (py_lower q) get_bnf_lookup = [].
Proof.
  intros q H. destruct (code_query_digit q H) as [c [Hc Hd]].
  exact (collect_matches_digit _ _ c Hc Hd table_names_no_digit).
Qed.

Lemma table_codes_length :
  Forall (fun en => String.length (fst (snd en)) = 9%nat) get_bnf_lookup.
Proof. vm_compute. repeat constructor. Qed.

Lemma iter_chars_short :
  forall s, filter (fun ch => Nat.ltb 2 (String.length ch)) (py_iter_chars s) = [].
Proof.
  unfold py_iter_chars. induction s as [|c s IH]; [reflexivity|]. exact IH.
Qed.

Lemma collect_suggestions_nil : forall ql d, collect_suggestions ql d = [].
Proof.
  intros ql d. induction d as [|[name [code cat]] d IH]; [reflexivity|].
  cbn [collect_suggestions]. rewrite iter_chars_short. exact IH.
Qed.

(** Without data from the national series, a query with no table match
    resolves to no match, whether or not it passes the code guard. *)
Lemma search_drugs_no_data :
  forall e q,
    (forall code, no_data e "spending" code) ->
    collect_matches (py_lower q) get_bnf_lookup = [] ->
    search_drugs e q = Ok [].
Proof.
  intros e q Hnd Hm.
  assert (Hf : forall c m, get_total_spending_trend e c m = Ok empty_frame)
    by (intros; apply trend_fetch_no_data; apply Hnd).
  assert (Hp : forall ps, probe_prefixes e q ps = Ok None).
  { induction ps as [|p ps IH]; [reflexivity|].
    cbn [probe_prefixes]. cbv zeta. rewrite Hf. cbn [bind].
    change (frame_empty empty_frame) with true. cbn [negb]. exact IH. }
  assert (Hr : catch_all (try_remote e q) = Ok None).
  { unfold catch_all, try_remote. rewrite Hf. cbn [bind].
    change (frame_empty empty_frame) with true. cbn [negb]. rewrite Hp. reflexivity. }
  assert (Htail : search_tail e q = Ok []).
  { unfold search_tail. cbv zeta. rewrite Hm, Hr. cbn [bind].
    rewrite collect_suggestions_nil. reflexivity. }
  unfold search_drugs. destruct (is_code_query q).
  - rewrite Hf. cbn [bind]. change (frame_empty empty_frame) with true. cbn [negb].
    exact Htail.
  - cbn [bind]. exact Htail.
Qed.

(** C4 (counterexample). Offline, the 10-character code ["0212000AA0"]
    (absent from the table) resolves to no identity at all. *)
Lemma code_query_offline_empty :
  is_code_query "0212000AA0" = true /\ search_drugs env_offline "0212000AA0" = Ok [].
Proof. split; vm_compute; reflexivity. Qed.

(** C4 (amended). A query passing the code guard (10 characters, digits once
    the letters A-Z are removed) is probed against the remote trend source;
    a non-empty answer gives the single identity
    [(query.title(), query.upper(), "Direct BNF Code")]. The table is never
    searched by code (its codes have 9 characters) and its name matching
    finds nothing for such a query; when the trend source has no data for any
    code (in particular offline), the query resolves to the empty list. *)
Theorem code_query_resolution :
  forall e q,
    is_code_query q = true ->
    (forall t, get_total_spending_trend e q (PInt 1) = Ok t -> frame_empty t = false ->
               search_drugs e q = Ok [(py_title q, py_upper q, "Direct BNF Code")])
    /\ collect_matches (py_lower q) get_bnf_lookup = []
    /\ Forall (fun en => String.length (fst (snd en)) = 9%nat) get_bnf_lookup
    /\ ((forall code, no_data e "spending" code) -> search_drugs e q = Ok []).
Proof.
  intros e q H. split; [|split; [apply code_query_no_table_match; exact H
                                 |split; [exact table_codes_length|]]].
  2: { intro Hnd. apply (search_drugs_no_data e q Hnd).
       apply code_query_no_table_match. exact H. }
  intros t Ht He. unfold search_drugs. rewrite H, Ht. cbn [bind]. rewrite He.
  reflexivity.
Qed.

Lemma code_query_resolution_witness :
  search_drugs env_recent "0212000AA0"
  = Ok [("0212000Aa0", "0212000AA0", "Direct BNF Code")].
Proof.
  apply (proj1 (code_query_resolution env_recent "0212000AA0"
                  ltac:(vm_compute; reflexivity)) frame_recent);
    vm_compute; reflexivity.
Defined.

Lemma collect_matches_filter :
  forall ql d,
    collect_matches ql d
    = map (fun en => (fst en, fst (snd en), snd (snd en)))
          (filter (fun en => py_in ql (py_lower (fst en))) d).
Proof.
  intros ql d. induction d as [|[name [code cat]] d IH]; simpl; [reflexivity|].
  destruct (py_in ql (py_lower name)); simpl; rewrite IH; reflexivity.
Qed.

(** C7. A query whose lower-cased form is a substring of at least one
    lower-cased table name resolves to exactly the matching entries of the
    table, in table order (such a query cannot pass the code guard: it holds
    no digit). *)
Theorem name_query_resolution :
  forall e q, table_matches q <> [] -> search_drugs e q = Ok (table_matches q).
Proof.
  intros e q H.
  assert (Hm : collect_matches (py_lower q) get_bnf_lookup = table_matches q)
    by apply collect_matches_filter.
  unfold search_drugs. destruct (is_code_query q) eqn:Hc.
  - exfalso. apply H. rewrite <- Hm. apply code_query_no_table_match. exact Hc.
  - cbn [bind]. unfold search_tail. cbv zeta. rewrite Hm.
    destruct (table_matches q); [contradiction|reflexivity].
Qed.

Lemma name_query_resolution_witness :
  table_matches "PRED" = [("prednisolone", "0302020P0", "Oral Corticosteroid")]
  /\ search_drugs env_offline "PRED" = Ok (table_matches "PRED").
Proof.
  split.
  - vm_compute. reflexivity.
  - apply (name_query_resolution env_offline "PRED"). vm_compute. discriminate.
Defined.

(** ** What the resolver can return *)

Lemma collect_matches_in :
  forall ql d x, In x (collect_matches ql d) ->
                 In (fst (fst x), (snd (fst x), snd x)) d.
Proof.
  intros ql d x. induction d as [|[name [code cat]] d IH]; simpl; [tauto|].
  destruct (py_in ql (py_lower name)); simpl; intro H; [|right; auto].
  destruct H as [<-|H]; [left; reflexivity|right; auto].
Qed.

Lemma probe_prefixes_some :
  forall e q ps r, probe_prefixes e q ps = Ok (Some r) ->
                   exists n c, r = [(n, c, "Found via API search")].
Proof.
  intros e q ps r. induction ps as [|p ps IH]; simpl; intro H; [discriminate|].
  destruct (get_total_spending_trend e _ (PInt 1)) as [t| |]; cbn [bind] in H;
    try discriminate.
  destruct (negb (frame_empty t)); [|auto].
  injection H as <-. eauto.
Qed.

Lemma try_remote_some :
  forall e q r, catch_all (try_remote e q) = Ok (Some r) ->
    (exists n c, r = [(n, c, "Found in OpenPrescribing Database")])
    \/ (exists n c, r = [(n, c, "Found via API search")]).
Proof.
  intros e q r. unfold catch_all, try_remote.
  destruct (get_total_spending_trend e q (PInt 1)) as [t| |]; cbn [bind];
    try discriminate.
  destruct (negb (frame_empty t)).
  - intro H. injection H as <-. left. eauto.
  - destruct (probe_prefixes e q common_prefixes) as [o| |] eqn:E; try discriminate.
    intro H. injection H as ->. right. eapply probe_prefixes_some; eauto.
Qed.

Lemma search_tail_results :
  forall e q ms x, search_tail e q = Ok ms -> In x ms ->
    snd x = "Found in OpenPrescribing Database"
    \/ snd x = "Found via API search"
    \/ In (fst (fst x), (snd (fst x), snd x)) get_bnf_lookup.
Proof.
  intros e q ms x. unfold search_tail. cbv zeta.
  destruct (collect_matches (py_lower q) get_bnf_lookup) as [|d l] eqn:Hm.
  - destruct (catch_all (try_remote e q)) as [[r|]| |] eqn:Hr; cbn [bind];
      try discriminate.
    + intros Ht Hx. injection Ht as <-.
      destruct (try_remote_some e q r Hr) as [[n [c ->]]|[n [c ->]]];
        destruct Hx as [<-|[]]; simpl; tauto.
    + (* the suggestion filter keeps only pieces longer than two characters
         of a string iterated character by character: nothing *)
      intros Ht Hx. injection Ht as <-. destruct Hx.
  - intros Ht Hx. injection Ht as <-. right. right.
    apply (collect_matches_in (py_lower q)). rewrite Hm. exact Hx.
Qed.

(** Every identity [search_drugs] returns is a table entry or carries one of
    the categories the code writes for remote hits. *)
Lemma bind_Ok {A B : Type} (a : A) (f : A -> outcome B) : bind (Ok a) f = f a.
Proof. reflexivity. Qed.

Lemma search_drugs_results :
  forall e q ms x, search_drugs e q = Ok ms -> In x ms ->
    snd x = "Direct BNF Code" \/ snd x = "Found in OpenPrescribing Database"
    \/ snd x = "Found via API search"
    \/ In (fst (fst x), (snd (fst x), snd x)) get_bnf_lookup.
Proof.
  intros e q ms x H Hx.
  unfold search_drugs in H. destruct (is_code_query q).
  - destruct (get_total_spending_trend e q (PInt 1)) as [t| |]; cbn [bind] in H;
      [|discriminate H|discriminate H].
    destruct (negb (frame_empty t)); [|right; exact (search_tail_results e q ms x H Hx)].
    injection H as <-. destruct Hx as [<-|[]]. left. reflexivity.
  - rewrite bind_Ok in H. cbv beta iota in H.
    right. exact (search_tail_results e q ms x H Hx).
Qed.

Lemma table_no_old_prednisolone :
  existsb (fun en => String.eqb (fst (snd en)) "0603020P0"
                     && String.eqb (snd (snd en)) "Corticosteroid") get_bnf_lookup = false.
Proof. vm_compute. reflexivity. Qed.

Lemma search_prednisolone :
  forall e, search_drugs e "prednisolone"
            = Ok [("prednisolone", "0302020P0", "Oral Corticosteroid")].
Proof. intro e. vm_compute. reflexivity. Qed.

(** C10. The table has one entry per display name; resolving
    ["prednisolone"] gives the single match [0302020P0] / ["Oral
    Corticosteroid"] (the later literal entry), and no resolution ever
    returns the earlier entry [0603020P0] / ["Corticosteroid"]. *)
Theorem prednisolone_single_entry :
  NoDup (map fst get_bnf_lookup)
  /\ (forall e, search_drugs e "prednisolone"
                = Ok [("prednisolone", "0302020P0", "Oral Corticosteroid")])
  /\ (forall e q ms n, search_drugs e q = Ok ms ->
                       ~ In (n, "0603020P0", "Corticosteroid") ms).
Proof.
  split; [|split; [exact search_prednisolone|]].
  - vm_compute. repeat constructor; simpl; intuition discriminate.
  - intros e q ms n H Hin.
    destruct (search_drugs_results e q ms _ H Hin) as [E|[E|[E|E]]];
      simpl in E; try discriminate.
    assert (Hb : existsb (fun en => String.eqb (fst (snd en)) "0603020P0"
                          && String.eqb (snd (snd en)) "Corticosteroid")
                         get_bnf_lookup = true)
      by (apply existsb_exists; eexists; split; [exact E|reflexivity]).
    rewrite table_no_old_prednisolone in Hb. discriminate.
Qed.

(** ** Regional percentile *)

Open Scope Q_scope.

Lemma fold_Qplus_acc : forall l a, fold_left Qplus l a == a + fold_left Qplus l 0.
Proof.
  induction l as [|x l IH]; intro a; simpl; [ring|].
  rewrite (IH (a + x)), (IH (0 + x)). ring.
Qed.







Close Scope Q_scope.

(** ** Seasonal variation *)

Open Scope Q_scope.

Lemma fold_choose_in {A : Type} (f : A -> A -> A) :
  (forall m y, f m y = m \/ f m y = y) ->
  forall l x, In (fold_left f l x) (x :: l).
Proof.
  intros Hf l. induction l as [|y l IH]; intro x; simpl; [left; reflexivity|].
  destruct (IH (f x y)) as [E|E]; [|right; right; exact E].
  destruct (Hf x y) as [E'|E']; [left|right; left];
    (etransitivity; [symmetry; exact E'|exact E]).
Qed.

Lemma qsum_const :
  forall l c, (forall v, In v l -> v == c) ->
              qsum l == inject_Z (Z.of_nat (length l)) * c.
Proof.
  intros l c. unfold qsum. induction l as [|x l IH]; intro H; [reflexivity|].
  cbn [fold_left length]. rewrite fold_Qplus_acc, Nat2Z.inj_succ.
  unfold Z.succ. rewrite inject_Z_plus, IH by (intros v Hv; apply H; right; exact Hv).
  rewrite (H x) by (left; reflexivity). ring.
Qed.

Lemma inject_len_nonzero {A : Type} :
  forall (l : list A), l <> [] -> ~ inject_Z (Z.of_nat (length l)) == 0.
Proof.
  intros [|x l] Hl H0; [contradiction|].
  change 0 with (inject_Z 0) in H0. apply inject_Z_injective in H0.
  simpl in H0. discriminate H0.
Qed.

Lemma qmean_const :
  forall l c, l <> [] -> (forall v, In v l -> v == c) -> qmean l == c.
Proof.
  intros l c Hl H. unfold qmean. rewrite (qsum_const l c H).
  field. apply inject_len_nonzero. exact Hl.
Qed.

(** With every per-key average equal to [c], the seasonal variation is
    computed without raising: [0.0] when [c > 0], [nan] (0/0) when [c = 0]. *)
Lemma seasonal_variation_const :
  forall ms c, ms <> [] -> (forall k v, In (k, v) ms -> v == c) ->
    exists sv, seasonal_variation ms = Ok sv
      /\ (0 < c -> exists q, sv = Fin q /\ q == 0)
      /\ (c == 0 -> sv = NaN).
Proof.
  intros ms c Hne H.
  assert (Hv : forall v, In v (map snd ms) -> v == c).
  { intros v Hin. apply in_map_iff in Hin. destruct Hin as [[k v'] [E Hin]].
    simpl in E. subst v'. exact (H k v Hin). }
  assert (Hm : qmean (map snd ms) == c).
  { apply qmean_const; [|exact Hv]. destruct ms; [contradiction|discriminate]. }
  unfold seasonal_variation. cbv zeta.
  destruct ms as [|[k v] ms']; [contradiction|]. cbn [map qmax qmin bind].
  set (mx := fold_left (fun m y => if Qle_bool y m then m else y) (map snd ms') v).
  set (mn := fold_left (fun m y => if Qle_bool m y then m else y) (map snd ms') v).
  assert (Hmx : mx == c).
  { apply Hv. apply fold_choose_in. intros m y. destruct (Qle_bool y m); tauto. }
  assert (Hmn : mn == c).
  { apply Hv. apply fold_choose_in. intros m y. destruct (Qle_bool m y); tauto. }
  assert (Hd : mx - mn == 0) by (rewrite Hmx, Hmn; ring).
  exists (times100 (fdiv (mx - mn) (qmean (v :: map snd ms')))).
  split; [reflexivity|]. unfold fdiv. split.
  - intro Hc. destruct (Qeq_bool (qmean (v :: map snd ms')) 0) eqn:E.
    + apply Qeq_bool_iff in E. cbn [map] in Hm. rewrite Hm in E.
      rewrite E in Hc. discriminate Hc.
    + eexists. split; [reflexivity|]. rewrite Hd. unfold Qdiv. ring.
  - intro Hc. cbn [map] in Hm.
    assert (E : Qeq_bool (qmean (v :: map snd ms')) 0 = true)
      by (apply Qeq_bool_iff; rewrite Hm; exact Hc).
    assert (E' : Qeq_bool (mx - mn) 0 = true) by (apply Qeq_bool_iff; exact Hd).
    rewrite E, E'. reflexivity.
Qed.

Lemma insert_key_nonnil {K : Type} (eqb leb : K -> K -> bool) :
  forall k l, insert_key eqb leb k l <> [].
Proof.
  intros k [|y l]; simpl; [discriminate|].
  destruct (eqb y k); [discriminate|]. destruct (leb y k); discriminate.
Qed.

Lemma group_mean_nonnil : forall l, l <> [] -> group_mean l <> [].
Proof.
  intros [|[k v] l] Hl; [contradiction|].
  unfold group_mean, group_keys. cbn [map fold_left fst].
  assert (G : forall ks acc, acc <> [] ->
                fold_left (fun acc k => insert_key Z.eqb Z.leb k acc) ks acc <> []).
  { induction ks as [|k' ks IH]; intros acc Ha; simpl; [exact Ha|].
    apply IH. apply insert_key_nonnil. }
  intro E. apply map_eq_nil in E. revert E. apply G. simpl. discriminate.
Qed.

Lemma idxmax_nonnil {K : Type} : forall (l : list (K * Q)), l <> [] -> exists k, idxmax l = Ok k.
Proof. intros [|[k v] l] H; [contradiction|]. eexists. reflexivity. Qed.

Lemma idxmin_nonnil {K : Type} : forall (l : list (K * Q)), l <> [] -> exists k, idxmin l = Ok k.
Proof. intros [|[k v] l] H; [contradiction|]. eexists. reflexivity. Qed.

Lemma keyed_costs_nonnil :
  forall df mq costs,
    rows df <> [] ->
    (forall r, In r (rows df) -> exists t, row_get "date" r = CTime t) ->
    map_outcome month_quarter (rows df) = Ok mq ->
    num_column df "actual_cost" = Ok costs ->
    keyed_costs mq costs <> [].
Proof.
  intros df mq costs Hne Hdates Hmq Hcosts.
  pose proof (num_column_length _ _ _ Hcosts) as Hl.
  destruct (rows df) as [|r rs]; [contradiction|].
  destruct (Hdates r (or_introl eq_refl)) as [t Ht].
  cbn [map_outcome] in Hmq. unfold month_quarter at 1 in Hmq. rewrite Ht in Hmq.
  cbn [bind] in Hmq.
  destruct (map_outcome month_quarter rs) as [mq'| |]; cbn [bind] in Hmq;
    [|discriminate Hmq|discriminate Hmq].
  injection Hmq as <-.
  destruct costs as [|c0 costs']; [discriminate Hl|]. simpl. discriminate.
Qed.

(** C9 (counterexample). Thirteen monthly periods all costing 0: every
    per-month average is 0 and the recorded seasonal variation is [nan]
    (numpy's 0/0), not [0.0]. *)
Lemma seasonal_zero_cost_nan :
  seasonal_variation_of (get_enhanced_drug_analysis (env_13 0) "0212000AA" (PInt 36))
  = Some NaN.
Proof. vm_compute. reflexivity. Qed.

(** C9 (amended). On a trend frame of at least 12 rows with dated rows and an
    [actual_cost] column, when every per-month average equals [c] the seasonal
    block completes without raising; the recorded variation is [0.0] when
    [c > 0] and [nan] (the float result of 0/0) when [c = 0]. *)
Theorem seasonal_equal_averages :
  forall a df mq costs c,
    (12 <= length (rows df))%nat ->
    has_col "date" df = true -> has_col "actual_cost" df = true ->
    (forall r, In r (rows df) -> exists t, row_get "date" r = CTime t) ->
    map_outcome month_quarter (rows df) = Ok mq ->
    num_column df "actual_cost" = Ok costs ->
    (forall k v, In (k, v) (monthly_avg mq costs) -> v == c) ->
    exists a' s, seasonal_block a df = Ok a' /\ a_seasonal_patterns a' = Some s
      /\ (0 < c -> exists q, seasonal_variation_pct s = Fin q /\ q == 0)
      /\ (c == 0 -> seasonal_variation_pct s = NaN).
Proof.
  intros a df mq costs c Hn Hd Hc Hdates Hmq Hcosts Heq.
  assert (Hne : rows df <> []) by (intro E; rewrite E in Hn; simpl in Hn; lia).
  pose proof (keyed_costs_nonnil df mq costs Hne Hdates Hmq Hcosts) as Hk.
  assert (Hms : monthly_avg mq costs <> []).
  { unfold monthly_avg. apply group_mean_nonnil.
    destruct (keyed_costs mq costs); [contradiction|discriminate]. }
  assert (Hqs : quarterly_avg mq costs <> []).
  { unfold quarterly_avg. apply group_mean_nonnil.
    destruct (keyed_costs mq costs); [contradiction|discriminate]. }
  destruct (seasonal_variation_const _ c Hms Heq) as [sv [Hsv [H1 H2]]].
  destruct (idxmax_nonnil _ Hms) as [hm Hhm].
  destruct (idxmin_nonnil _ Hms) as [lm Hlm].
  destruct (idxmax_nonnil _ Hqs) as [hq Hhq].
  assert (H12 : Nat.leb 12 (length (rows df)) = true) by (apply Nat.leb_le; exact Hn).
  unfold seasonal_block.
  rewrite (frame_nonempty df "date" Hd Hne), H12, Hd. cbn [negb andb].
  rewrite Hmq. cbn [bind]. rewrite Hc, Hcosts. cbn [bind]. cbv zeta.
  rewrite Hhm. cbn [bind]. rewrite Hlm. cbn [bind]. rewrite Hhq. cbn [bind].
  rewrite Hsv. cbn [bind].
  eexists. eexists. split; [reflexivity|]. split; [reflexivity|].
  cbn [seasonal_variation_pct]. split; assumption.
Qed.

Lemma seasonal_equal_averages_witness :
  exists a' s,
    seasonal_block (initial_analysis "Sertraline" jan_2024) (frame_year 100) = Ok a'
    /\ a_seasonal_patterns a' = Some s
    /\ (0 < 100 -> exists q, seasonal_variation_pct s = Fin q /\ q == 0)
    /\ (100 == 0 -> seasonal_variation_pct s = NaN).
Proof.
  apply (seasonal_equal_averages (initial_analysis "Sertraline" jan_2024)
           (frame_year 100) year_keys year_costs 100).
  - vm_compute. lia.
  - vm_compute. reflexivity.
  - vm_compute. reflexivity.
  - intros r Hr. vm_compute in Hr.
    repeat (destruct Hr as [<-|Hr]; [eexists; vm_compute; reflexivity|]).
    destruct Hr.
  - vm_compute. reflexivity.
  - vm_compute. reflexivity.
  - intros k v Hin. vm_compute in Hin.
    repeat (destruct Hin as [Hin|Hin]; [injection Hin as <- <-; vm_compute; reflexivity|]).
    destruct Hin.
Defined.

Close Scope Q_scope.

(** ** Autocomplete suggestions *)

Lemma str_leb_total : forall a b, str_leb a b = false -> str_leb b a = true.
Proof.
  induction a as [|x a IH]; intros [|y b] H; simpl in *; try reflexivity; try discriminate.
  destruct (Nat.ltb (nat_of_ascii x) (nat_of_ascii y)) eqn:E1; [discriminate|].
  destruct (Nat.eqb (nat_of_ascii x) (nat_of_ascii y)) eqn:E2.
  - apply Nat.eqb_eq in E2. rewrite E2, Nat.ltb_irrefl, Nat.eqb_refl. apply IH. exact H.
  - apply Nat.ltb_ge in E1. apply Nat.eqb_neq in E2.
    assert (E3 : Nat.ltb (nat_of_ascii y) (nat_of_ascii x) = true) by (apply Nat.ltb_lt; lia).
    rewrite E3. reflexivity.
Qed.

Lemma str_leb_trans : forall a b c, str_leb a b = true -> str_leb b c = true -> str_leb a c = true.
Proof.
  induction a as [|x a IH]; intros [|y b] [|z c] H1 H2; simpl in *; try reflexivity;
    try discriminate.
  destruct (Nat.ltb (nat_of_ascii x) (nat_of_ascii y)) eqn:E1;
  destruct (Nat.eqb (nat_of_ascii x) (nat_of_ascii y)) eqn:E2;
  destruct (Nat.ltb (nat_of_ascii y) (nat_of_ascii z)) eqn:F1;
  destruct (Nat.eqb (nat_of_ascii y) (nat_of_ascii z)) eqn:F2;
  try discriminate;
  repeat match goal with
         | H : Nat.ltb _ _ = true |- _ => apply Nat.ltb_lt in H
         | H : Nat.ltb _ _ = false |- _ => apply Nat.ltb_ge in H
         | H : Nat.eqb _ _ = true |- _ => apply Nat.eqb_eq in H
         | H : Nat.eqb _ _ = false |- _ => apply Nat.eqb_neq in H
         end;
  try (assert (G : Nat.ltb (nat_of_ascii x) (nat_of_ascii z) = true)
         by (apply Nat.ltb_lt; lia); rewrite G; reflexivity);
  try lia.
  assert (G : Nat.ltb (nat_of_ascii x) (nat_of_ascii z) = false) by (apply Nat.ltb_ge; lia).
  assert (G' : Nat.eqb (nat_of_ascii x) (nat_of_ascii z) = true) by (apply Nat.eqb_eq; lia).
  rewrite G, G'. eapply IH; eassumption.
Qed.

Definition str_le (a b : string) : Prop := str_leb a b = true.

Lemma insert_str_perm : forall x l, Permutation (insert_str x l) (x :: l).
Proof.
  intros x l. induction l as [|y l IH]; simpl; [reflexivity|].
  destruct (str_leb y x); [|reflexivity].
  rewrite IH. apply perm_swap.
Qed.

Lemma sort_str_perm : forall l, Permutation (sort_str l) l.
Proof.
  intro l. unfold sort_str.
  assert (G : forall l acc, Permutation (fold_left (fun acc x => insert_str x acc) l acc)
                                        (app acc l)).
  { induction l0 as [|x l0 IH]; intro acc; simpl; [rewrite app_nil_r; reflexivity|].
    rewrite IH, insert_str_perm. apply Permutation_middle. }
  apply G.
Qed.

Lemma insert_str_sorted : forall x l, Sorted str_le l -> Sorted str_le (insert_str x l).
Proof.
  intros x l. induction l as [|y l IH]; intro H; simpl.
  - constructor; constructor.
  - destruct (str_leb y x) eqn:E.
    + constructor; [apply IH; inversion H; assumption|].
      destruct l as [|z l']; simpl; [constructor; exact E|].
      destruct (str_leb z x); constructor; [|exact E].
      inversion H as [|? ? _ Hh]. inversion Hh. assumption.
    + constructor; [exact H|]. constructor. apply str_leb_total. exact E.
Qed.

Lemma sort_str_sorted : forall l, StronglySorted str_le (sort_str l).
Proof.
  intro l. apply Sorted_StronglySorted.
  { intros a b c. apply str_leb_trans. }
  unfold sort_str.
  assert (G : forall l acc, Sorted str_le acc ->
                Sorted str_le (fold_left (fun acc x => insert_str x acc) l acc)).
  { induction l0 as [|x l0 IH]; intros acc Ha; simpl; [exact Ha|].
    apply IH. apply insert_str_sorted. exact Ha. }
  apply G. constructor.
Qed.

Lemma in_firstn_in {A : Type} : forall n (l : list A) x, In x (firstn n l) -> In x l.
Proof.
  induction n as [|n IH]; intros [|y l] x H; simpl in *; try tauto.
  destruct H as [H|H]; [left; exact H|right; eapply IH; eauto].
Qed.

Lemma firstn_strongly_sorted {A : Type} (R : A -> A -> Prop) :
  forall n l, StronglySorted R l -> StronglySorted R (firstn n l).
Proof.
  induction n as [|n IH]; intros [|x l] H; simpl; try constructor.
  - apply IH. inversion H. assumption.
  - inversion H as [|? ? _ Hf]. rewrite Forall_forall in *.
    intros y Hy. apply Hf. eapply in_firstn_in. exact Hy.
Qed.

Lemma firstn_nodup {A : Type} : forall n (l : list A), NoDup l -> NoDup (firstn n l).
Proof.
  intros n l H. rewrite <- (firstn_skipn n l) in H.
  eapply NoDup_app_remove_r. exact H.
Qed.

Lemma table_names_nodup : NoDup (map fst get_bnf_lookup).
Proof. vm_compute. repeat constructor; simpl; intuition discriminate. Qed.

Lemma fold_prefix_filter :
  forall ql l acc,
    fold_left (fun acc drug_name =>
                 if str_prefix ql (py_lower drug_name) then app acc [drug_name] else acc)
              l acc
    = app acc (filter (fun n => str_prefix ql (py_lower n)) l).
Proof.
  intros ql l. induction l as [|x l IH]; intro acc; simpl; [rewrite app_nil_r; reflexivity|].
  rewrite IH. destruct (str_prefix ql (py_lower x)); [rewrite <- app_assoc|]; reflexivity.
Qed.

Lemma fold_contains_spec :
  forall ql l acc,
    let r := fold_left (fun acc drug_name =>
                          if py_in ql (py_lower drug_name)
                             && negb (existsb (String.eqb drug_name) acc)
                          then app acc [drug_name] else acc) l acc in
    (forall n, In n r -> In n acc \/ (In n l /\ py_in ql (py_lower n) = true))
    /\ (NoDup acc -> NoDup r)
    /\ (forall n, In n acc -> In n r)
    /\ (forall n, In n l -> py_in ql (py_lower n) = true -> In n r).
Proof.
  intros ql l. induction l as [|x l IH]; intro acc; cbn zeta; simpl.
  - repeat split; auto. intros n [].
  - destruct (IH (if py_in ql (py_lower x) && negb (existsb (String.eqb x) acc)
                  then app acc [x] else acc)) as [H1 [H2 [H3 H4]]].
    destruct (py_in ql (py_lower x)) eqn:Ec; destruct (existsb (String.eqb x) acc) eqn:Ee;
      simpl in *; repeat split.
    + intros n Hn. destruct (H1 n Hn) as [A|A]; [left; exact A|right; tauto].
    + exact H2.
    + exact H3.
    + intros n [<-|Hn] Hc; [|apply H4; assumption].
      apply H3. apply existsb_exists in Ee. destruct Ee as [y [Hy Ey]].
      apply String.eqb_eq in Ey. subst y. exact Hy.
    + intros n Hn. destruct (H1 n Hn) as [A|A].
      * apply in_app_or in A. destruct A as [A|[<-|[]]]; [left; exact A|].
        right. split; [left; reflexivity|exact Ec].
      * right. tauto.
    + intro Hnd. apply H2. apply NoDup_app; [exact Hnd|repeat constructor; auto|].
      intros y Hy [Ey|[]]. subst y. assert (existsb (String.eqb x) acc = true)
        by (apply existsb_exists; exists x; split; [exact Hy|apply String.eqb_refl]).
      congruence.
    + intros n Hn. apply H3. apply in_or_app. left. exact Hn.
    + intros n [<-|Hn] Hc; [|apply H4; assumption].
      apply H3. apply in_or_app. right. left. reflexivity.
    + intros n Hn. destruct (H1 n Hn) as [A|A]; [left; exact A|right; tauto].
    + exact H2.
    + exact H3.
    + intros n [<-|Hn] Hc; [congruence|]. apply H4; assumption.
    + intros n Hn. destruct (H1 n Hn) as [A|A]; [left; exact A|right; tauto].
    + exact H2.
    + exact H3.
    + intros n [<-|Hn] Hc; [congruence|]. apply H4; assumption.
Qed.

Lemma suggestion_list_spec :
  forall q,
    let ql := py_lower q in
    let s1 := filter (fun n => str_prefix ql (py_lower n)) (map fst get_bnf_lookup) in
    let s2 :=
      if Nat.ltb (length s1) 5 then
        fold_left (fun acc drug_name =>
                     if py_in ql (py_lower drug_name)
                        && negb (existsb (String.eqb drug_name) acc)
                     then app acc [drug_name] else acc)
                  (map fst get_bnf_lookup) s1
      else s1 in
    (String.eqb q "" || Nat.ltb (String.length q) 2 = false ->
     get_drug_suggestions q = firstn 8 (sort_str s2))
    /\ NoDup s2
    /\ (forall n, In n s2 -> In n (map fst get_bnf_lookup) /\ py_in ql (py_lower n) = true).
Proof.
  intros q ql s1 s2.
  assert (Hs1 : forall n, In n s1 -> In n (map fst get_bnf_lookup) /\ py_in ql (py_lower n) = true).
  { intros n Hn. apply filter_In in Hn. destruct Hn as [Hn Hp]. split; [exact Hn|].
    destruct (py_lower n) as [|c t]; cbn [py_in]; rewrite Hp; reflexivity. }
  assert (Hnd1 : NoDup s1) by (apply NoDup_filter; apply table_names_nodup).
  split; [|split].
  - intro Hg. unfold get_drug_suggestions. rewrite Hg. cbv zeta.
    rewrite fold_prefix_filter, app_nil_l. reflexivity.
  - unfold s2. destruct (Nat.ltb (length s1) 5); [|exact Hnd1].
    destruct (fold_contains_spec ql (map fst get_bnf_lookup) s1) as [_ [H2 _]].
    apply H2. exact Hnd1.
  - unfold s2. destruct (Nat.ltb (length s1) 5); [|exact Hs1].
    destruct (fold_contains_spec ql (map fst get_bnf_lookup) s1) as [H1 _].
    intros n Hn. destruct (H1 n Hn) as [A|A]; [apply Hs1; exact A|exact A].
Qed.

(** Autocomplete: a query shorter than two characters gets no suggestion;
    otherwise at most eight distinct table names come back, in ascending
    order, each containing the query case-insensitively. *)
Theorem drug_suggestions_shape :
  forall q,
    ((String.length q < 2)%nat -> get_drug_suggestions q = [])
    /\ (length (get_drug_suggestions q) <= 8)%nat
    /\ NoDup (get_drug_suggestions q)
    /\ StronglySorted str_le (get_drug_suggestions q)
    /\ (forall n, In n (get_drug_suggestions q) ->
                  In n (map fst get_bnf_lookup) /\ py_in (py_lower q) (py_lower n) = true).
Proof.
  intro q.
  destruct (String.eqb q "" || Nat.ltb (String.length q) 2) eqn:Hg.
  - assert (E : get_drug_suggestions q = []) by (unfold get_drug_suggestions; rewrite Hg; reflexivity).
    rewrite E. split; [intros _; reflexivity|].
    split; [simpl; lia|]. split; [apply NoDup_nil|]. split; [apply SSorted_nil|].
    intros n [].
  - destruct (suggestion_list_spec q) as [Heq [Hnd Hin]]. rewrite (Heq Hg).
    split; [|split; [|split; [|split]]].
    + intro Hl. apply Nat.ltb_lt in Hl. rewrite Hl, orb_true_r in Hg. discriminate Hg.
    + apply firstn_le_length.
    + apply firstn_nodup. eapply Permutation_NoDup; [symmetry; apply sort_str_perm|exact Hnd].
    + apply firstn_strongly_sorted. apply sort_str_sorted.
    + intros n Hn. apply Hin. apply in_firstn_in in Hn.
      eapply Permutation_in; [apply sort_str_perm|exact Hn].
Qed.

(** Autocomplete completeness: for a query of two or more characters that
    fewer than five table names start with and at most eight contain, every
    table name containing it is suggested. *)
Theorem drug_suggestions_complete :
  forall q n,
    (2 <= String.length q)%nat ->
    (length (filter (fun m => str_prefix (py_lower q) (py_lower m))
                    (map fst get_bnf_lookup)) < 5)%nat ->
    (length (filter (fun m => py_in (py_lower q) (py_lower m))
                    (map fst get_bnf_lookup)) <= 8)%nat ->
    In n (map fst get_bnf_lookup) -> py_in (py_lower q) (py_lower n) = true ->
    In n (get_drug_suggestions q).
Proof.
  intros q n Hq Hp Hc Hn Hnc.
  destruct (suggestion_list_spec q) as [Heq [Hnd Hin]]. cbv zeta in Heq, Hnd, Hin.
  assert (Hg : String.eqb q "" || Nat.ltb (String.length q) 2 = false).
  { destruct q as [|c q']; [simpl in Hq; lia|].
    simpl (String.eqb _ _). simpl orb. apply Nat.ltb_ge. exact Hq. }
  rewrite (Heq Hg). apply Nat.ltb_lt in Hp. rewrite Hp in Hnd, Hin |- *.
  set (s2 := fold_left _ _ _) in *.
  assert (Hmem : In n s2).
  { destruct (fold_contains_spec (py_lower q) (map fst get_bnf_lookup)
               (filter (fun n => str_prefix (py_lower q) (py_lower n))
                       (map fst get_bnf_lookup))) as [_ [_ [_ H4]]].
    apply H4; assumption. }
  assert (Hlen : (length s2 <= 8)%nat).
  { etransitivity; [|exact Hc]. apply NoDup_incl_length; [exact Hnd|].
    intros m Hm. apply filter_In. exact (Hin m Hm). }
  rewrite firstn_all2.
  - eapply Permutation_in; [symmetry; apply sort_str_perm|exact Hmem].
  - rewrite (Permutation_length (sort_str_perm s2)). exact Hlen.
Qed.

Lemma drug_suggestions_complete_witness :
  In "morphine" (get_drug_suggestions "ine").
Proof.
  apply (drug_suggestions_complete "ine" "morphine");
    [vm_compute; lia|vm_compute; lia|vm_compute; lia|vm_compute; tauto|vm_compute; reflexivity].
Defined.

(** ** The resolver's fallbacks *)

Lemma str_prefix_app : forall p c, str_prefix p (p ++ c) = true.
Proof.
  induction p as [|a p IH]; intro c; [reflexivity|].
  cbn [str_prefix append]. rewrite Ascii.eqb_refl. apply IH.
Qed.

Lemma table_no_similar_category :
  forallb (fun en => negb (str_prefix "Similar to: " (snd (snd en)))) get_bnf_lookup = true.
Proof. vm_compute. reflexivity. Qed.

(** [search_drugs] never returns a ["Similar to: ..."] suggestion: the
    last-resort loop keeps only the pieces longer than two characters of a
    name iterated character by character, so it selects no name. *)
Theorem search_never_suggests :
  forall e q ms x c, search_drugs e q = Ok ms -> In x ms -> snd x <> "Similar to: " ++ c.
Proof.
  intros e q ms x c H Hx E.
  destruct (search_drugs_results e q ms x H Hx) as [E'|[E'|[E'|Hin]]];
    try (rewrite E' in E; discriminate E).
  pose proof table_no_similar_category as T. rewrite forallb_forall in T.
  specialize (T _ Hin). cbn [fst snd] in T. rewrite E, str_prefix_app in T. discriminate T.
Qed.

(** When the national series has no data for any code, a query that matches
    no table name resolves to no match at all (the page then reports that no
    prescribing data was found). *)
Theorem search_no_match_without_data :
  forall e q,
    (forall code, no_data e "spending" code) ->
    table_matches q = [] ->
    search_drugs e q = Ok [].
Proof.
  intros e q Hnd Ht.
  assert (Hm : collect_matches (py_lower q) get_bnf_lookup = table_matches q)
    by apply collect_matches_filter.
  rewrite Ht in Hm. exact (search_drugs_no_data e q Hnd Hm).
Qed.

Lemma search_no_match_without_data_witness :
  search_drugs env_offline "zzz" = Ok [].
Proof.
  apply search_no_match_without_data.
  - intro code. left. reflexivity.
  - vm_compute. reflexivity.
Defined.

(** ** The fetchers' date window *)

Definition row_date_le (a b : row) : Prop := date_le a b = true.

Lemma date_le_total : forall a b, date_le a b = false -> date_le b a = true.
Proof.
  unfold date_le. intros a b.
  destruct (row_get "date" a), (row_get "date" b); try discriminate; try reflexivity.
  intro H. apply Z.leb_gt in H. apply Z.leb_le. lia.
Qed.

Lemma date_le_trans : forall a b c, date_le a b = true -> date_le b c = true -> date_le a c = true.
Proof.
  unfold date_le. intros a b c.
  destruct (row_get "date" a), (row_get "date" b), (row_get "date" c);
    try discriminate; try reflexivity.
  intros H1 H2. apply Z.leb_le in H1, H2. apply Z.leb_le. lia.
Qed.

Lemma insert_row_sorted : forall r l, Sorted row_date_le l -> Sorted row_date_le (insert_row r l).
Proof.
  intros r l. induction l as [|y l IH]; intro H; simpl.
  - constructor; constructor.
  - destruct (date_le y r) eqn:E.
    + constructor; [apply IH; inversion H; assumption|].
      destruct l as [|z l']; simpl; [constructor; exact E|].
      destruct (date_le z r); constructor; [|exact E].
      inversion H as [|? ? _ Hh]. inversion Hh. assumption.
    + constructor; [exact H|]. constructor. apply date_le_total. exact E.
Qed.

Lemma sort_by_date_sorted : forall df, StronglySorted row_date_le (rows (sort_by_date df)).
Proof.
  intro df. apply Sorted_StronglySorted.
  { intros a b c. apply date_le_trans. }
  unfold sort_by_date. cbn [rows].
  assert (G : forall l acc, Sorted row_date_le acc ->
                Sorted row_date_le (fold_left (fun acc r => insert_row r acc) l acc)).
  { induction l as [|x l IH]; intros acc Ha; simpl; [exact Ha|].
    apply IH. apply insert_row_sorted. exact Ha. }
  apply G. constructor.
Qed.

Lemma strongly_sorted_filter {A : Type} (R : A -> A -> Prop) (f : A -> bool) :
  forall l, StronglySorted R l -> StronglySorted R (filter f l).
Proof.
  induction l as [|x l IH]; intro H; simpl; [constructor|].
  inversion H as [|? ? Hs Hf]. destruct (f x); [|apply IH; exact Hs].
  constructor; [apply IH; exact Hs|].
  rewrite Forall_forall in *. intros y Hy. apply filter_In in Hy. apply Hf. apply Hy.
Qed.

(** The dates of rows kept by [keep_since cutoff]. *)
Lemma keep_since_dates :
  forall cutoff df r, In r (rows (keep_since cutoff df)) ->
    exists t, row_get "date" r = CTime t /\ (cutoff <= t)%Z.
Proof.
  intros cutoff df r H. apply filter_In in H. destruct H as [_ H].
  destruct (row_get "date" r) as [| t |]; try discriminate.
  exists t. split; [reflexivity|]. apply Z.leb_le. exact H.
Qed.

Lemma dates_of_rows :
  forall cutoff l,
    StronglySorted row_date_le l ->
    (forall r, In r l -> exists t, row_get "date" r = CTime t /\ (cutoff <= t)%Z) ->
    exists ts, map (row_get "date") l = map CTime ts
               /\ StronglySorted Z.le ts /\ Forall (fun t => (cutoff <= t)%Z) ts.
Proof.
  intros cutoff l. induction l as [|r l IH]; intros Hs Hd.
  - exists []. repeat split; constructor.
  - inversion Hs as [|? ? Hs' Hf].
    destruct (IH Hs' (fun r' H => Hd r' (or_intror H))) as [ts [Hm [Hts Hc]]].
    destruct (Hd r (or_introl eq_refl)) as [t [Ht Hct]].
    exists (t :: ts). cbn [map]. rewrite Ht, Hm. split; [reflexivity|]. split.
    + constructor; [exact Hts|].
      rewrite Forall_forall in *. intros u Hu.
      assert (Hin : In (CTime u) (map (row_get "date") l))
        by (rewrite Hm; apply in_map; exact Hu).
      apply in_map_iff in Hin. destruct Hin as [r' [Er' Hr']].
      specialize (Hf r' Hr'). unfold row_date_le, date_le in Hf.
      rewrite Ht, Er' in Hf. apply Z.leb_le. exact Hf.
    + constructor; assumption.
Qed.

Lemma frame_empty_has_col :
  forall c df, has_col c df = true -> frame_empty df = true -> rows df = [].
Proof.
  unfold frame_empty, has_col. intros c [cs rs] Hc He. simpl in *.
  destruct cs; [discriminate|]. destruct rs; [reflexivity|discriminate].
Qed.

(** [get_total_spending_trend(code, months)] with an integer [months]: when
    the frame it returns has a ["date"] column, every row carries a parsed
    timestamp no earlier than [now - months * 30] days, and the timestamps
    are in ascending order. *)
Theorem trend_fetch_window_sorted :
  forall e code m df,
    get_total_spending_trend e code (PInt m) = Ok df ->
    has_col "date" df = true ->
    exists ts, map (row_get "date") (rows df) = map CTime ts
      /\ StronglySorted Z.le ts
      /\ Forall (fun t => (now e - m * 30 * day_seconds <= t)%Z) ts.
Proof.
  intros e code m df H Hc.
  unfold get_total_spending_trend in H.
  destruct (get_openprescribing_data e "spending" code) as [data|];
    [|injection H as <-; discriminate Hc].
  destruct (py_truthy data); [|injection H as <-; discriminate Hc].
  destruct (frame_of_json data) as [df0| |]; cbn [bind] in H; [|discriminate H|discriminate H].
  destruct (negb (frame_empty df0) && has_col "date" df0) eqn:Hg.
  - destruct (to_datetime_col df0) as [df1| |]; cbn [bind] in H;
      [|discriminate H|discriminate H].
    cbn [timedelta_days py_mul30] in H.
    destruct (Z.ltb 999999999 (Z.abs (m * 30))); cbn [bind] in H; [discriminate H|].
    unfold datetime_sub in H. cbv zeta in H.
    destruct (_ || _); cbn [bind] in H; [discriminate H|].
    injection H as <-.
    apply dates_of_rows.
    + apply strongly_sorted_filter. apply sort_by_date_sorted.
    + apply keep_since_dates.
  - injection H as <-. apply andb_false_iff in Hg.
    rewrite Hc in Hg. destruct Hg as [Hg|Hg]; [|discriminate Hg].
    apply negb_false_iff in Hg. rewrite (frame_empty_has_col _ _ Hc Hg).
    exists []. repeat split; constructor.
Qed.

Lemma trend_fetch_window_sorted_witness :
  exists ts, map (row_get "date") (rows (frame_year 100)) = map CTime ts
    /\ StronglySorted Z.le ts
    /\ Forall (fun t => (now (env_year 100) - 36 * 30 * day_seconds <= t)%Z) ts.
Proof.
  apply (trend_fetch_window_sorted (env_year 100) "0212000AA" 36);
    vm_compute; reflexivity.
Defined.

(** [get_drug_spending_by_icb(code, months)] with an integer [months]: when
    the frame it returns has a ["date"] column, every row carries a parsed
    timestamp no earlier than [now - months * 30] days. *)
Theorem icb_fetch_window :
  forall e code m df r,
    get_drug_spending_by_icb e code (PInt m) = Ok df ->
    has_col "date" df = true ->
    In r (rows df) ->
    exists t, row_get "date" r = CTime t /\ (now e - m * 30 * day_seconds <= t)%Z.
Proof.
  intros e code m df r H Hc Hr.
  unfold get_drug_spending_by_icb in H.
  destruct (get_openprescribing_data e "spending_by_org" code) as [data|];
    [|injection H as <-; discriminate Hc].
  destruct (py_truthy data); [|injection H as <-; discriminate Hc].
  destruct (frame_of_json data) as [df0| |]; cbn [bind] in H; [|discriminate H|discriminate H].
  destruct (negb (frame_empty df0) && has_col "date" df0) eqn:Hg.
  - destruct (to_datetime_col df0) as [df1| |]; cbn [bind] in H;
      [|discriminate H|discriminate H].
    cbn [timedelta_days py_mul30] in H.
    destruct (Z.ltb 999999999 (Z.abs (m * 30))); cbn [bind] in H; [discriminate H|].
    unfold datetime_sub in H. cbv zeta in H.
    destruct (_ || _); cbn [bind] in H; [discriminate H|].
    injection H as <-.
    eapply keep_since_dates. exact Hr.
  - injection H as <-. apply andb_false_iff in Hg.
    rewrite Hc in Hg. destruct Hg as [Hg|Hg]; [|discriminate Hg].
    apply negb_false_iff in Hg. rewrite (frame_empty_has_col _ _ Hc Hg) in Hr.
    destruct Hr.
Qed.

Lemma icb_fetch_window_witness :
  exists t, row_get "date" (hd [] (rows frame_icb)) = CTime t
            /\ (now env_icb - 12 * 30 * day_seconds <= t)%Z.
Proof.
  apply (icb_fetch_window env_icb "0212000AA" 12 frame_icb (hd [] (rows frame_icb)));
    vm_compute; [reflexivity|reflexivity|left; reflexivity].
Defined.

(** ** Related drugs *)

Lemma collect_related_in :
  forall ch c d n code cat,
    In (n, code, cat) (collect_related ch c d) ->
    In (n, (code, cat)) d /\ str_prefix ch code = true /\ code <> c.
Proof.
  intros ch c d n code cat. induction d as [|[name [code' cat']] d IH]; simpl; [tauto|].
  destruct (str_prefix ch code' && negb (String.eqb code' c)) eqn:E; simpl.
  - intros [Ee|H].
    + injection Ee as -> -> ->. apply andb_true_iff in E. destruct E as [E1 E2].
      apply negb_true_iff, String.eqb_neq in E2. auto.
    + destruct (IH H) as [A B]. auto.
  - intro H. destruct (IH H) as [A B]. auto.
Qed.

(** [get_related_drugs_context(code)] lists at most five table drugs, each in
    the chapter given by the first two characters of [code] and none with
    [code] itself. *)
Theorem related_context_invariant :
  forall c,
    bnf_chapter (get_related_drugs_context c) = str_take 2 c
    /\ (length (related_drugs (get_related_drugs_context c)) <= 5)%nat
    /\ (forall n code cat, In (n, code, cat) (related_drugs (get_related_drugs_context c)) ->
          In (n, (code, cat)) get_bnf_lookup /\ str_prefix (str_take 2 c) code = true
          /\ code <> c).
Proof.
  intro c. unfold get_related_drugs_context. cbv zeta. cbn [bnf_chapter related_drugs].
  split; [reflexivity|]. split; [apply firstn_le_length|].
  intros n code cat H. apply in_firstn_in in H. eapply collect_related_in. exact H.
Qed.

(** ** Regional extremes *)

Open Scope Q_scope.

Lemma fold_max_pair {K : Type} :
  forall (l : list (K * Q)) acc,
    let r := fold_left (fun acc kv => if negb (Qle_bool (snd kv) (snd acc)) then kv else acc)
                       l acc in
    In r (acc :: l) /\ (forall kv, In kv (acc :: l) -> snd kv <= snd r)
    /\ fold_left (fun m y => if Qle_bool y m then m else y) (map snd l) (snd acc) = snd r.
Proof.
  induction l as [|kv l IH]; intro acc; cbv zeta; simpl.
  - split; [left; reflexivity|]. split; [|reflexivity].
    intros kv [<-|[]]. apply Qle_refl.
  - destruct (Qle_bool (snd kv) (snd acc)) eqn:E; simpl;
      destruct (IH (if negb (Qle_bool (snd kv) (snd acc)) then kv else acc)) as [H1 [H2 H3]];
      rewrite E in H1, H2, H3; simpl in H1, H2, H3.
    + apply Qle_bool_iff in E. split; [|split; [|exact H3]].
      * destruct H1 as [H1|H1]; [left; exact H1|right; right; exact H1].
      * intros kv' [<-|[<-|Hin]].
        -- apply H2. left. reflexivity.
        -- eapply Qle_trans; [exact E|]. apply H2. left. reflexivity.
        -- apply H2. right. exact Hin.
    + split; [|split; [|exact H3]].
      * right. exact H1.
      * assert (Lt : snd acc <= snd kv).
        { apply Qlt_le_weak. apply Qnot_le_lt. intro C. apply Qle_bool_iff in C.
          rewrite C in E. discriminate E. }
        intros kv' [<-|Hin].
        -- eapply Qle_trans; [exact Lt|]. apply H2. left. reflexivity.
        -- apply H2. exact Hin.
Qed.

Lemma fold_min_pair {K : Type} :
  forall (l : list (K * Q)) acc,
    let r := fold_left (fun acc kv => if negb (Qle_bool (snd acc) (snd kv)) then kv else acc)
                       l acc in
    In r (acc :: l) /\ (forall kv, In kv (acc :: l) -> snd r <= snd kv)
    /\ fold_left (fun m y => if Qle_bool m y then m else y) (map snd l) (snd acc) = snd r.
Proof.
  induction l as [|kv l IH]; intro acc; cbv zeta; simpl.
  - split; [left; reflexivity|]. split; [|reflexivity].
    intros kv [<-|[]]. apply Qle_refl.
  - destruct (Qle_bool (snd acc) (snd kv)) eqn:E; simpl;
      destruct (IH (if negb (Qle_bool (snd acc) (snd kv)) then kv else acc)) as [H1 [H2 H3]];
      rewrite E in H1, H2, H3; simpl in H1, H2, H3.
    + apply Qle_bool_iff in E. split; [|split; [|exact H3]].
      * destruct H1 as [H1|H1]; [left; exact H1|right; right; exact H1].
      * intros kv' [<-|[<-|Hin]].
        -- apply H2. left. reflexivity.
        -- eapply Qle_trans; [|exact E]. apply H2. left. reflexivity.
        -- apply H2. right. exact Hin.
    + split; [|split; [|exact H3]].
      * right. exact H1.
      * assert (Lt : snd kv <= snd acc).
        { apply Qlt_le_weak. apply Qnot_le_lt. intro C. apply Qle_bool_iff in C.
          rewrite C in E. discriminate E. }
        intros kv' [<-|Hin].
        -- eapply Qle_trans; [|exact Lt]. apply H2. left. reflexivity.
        -- apply H2. exact Hin.
Qed.

Lemma named_in :
  forall s kv, In kv (map (fun e => (s_name e, s_cost e)) s) ->
               exists e, In e s /\ kv = (s_name e, s_cost e).
Proof.
  intros s kv H. apply in_map_iff in H. destruct H as [e [<- H]]. eauto.
Qed.

Lemma summary_max :
  forall s, s <> [] ->
    exists hi, In hi s
      /\ idxmax (map (fun e => (s_name e, s_cost e)) s) = Ok (s_name hi)
      /\ qmax (map s_cost s) = Ok (s_cost hi)
      /\ (forall e, In e s -> s_cost e <= s_cost hi).
Proof.
  intros [|x s'] Hne; [contradiction|].
  destruct (fold_max_pair (map (fun e => (s_name e, s_cost e)) s') (s_name x, s_cost x))
    as [H1 [H2 H3]].
  set (r := fold_left _ _ _) in H1, H2, H3.
  change ((s_name x, s_cost x) :: map (fun e => (s_name e, s_cost e)) s')
    with (map (fun e => (s_name e, s_cost e)) (x :: s')) in H1, H2.
  destruct (named_in _ _ H1) as [hi [Hin Er]].
  exists hi. split; [exact Hin|]. split; [|split].
  - unfold idxmax, idx_extreme. cbn [map]. fold r. rewrite Er. reflexivity.
  - unfold qmax. cbn [map].
    assert (Em : map snd (map (fun e => (s_name e, s_cost e)) s') = map s_cost s')
      by (rewrite map_map; reflexivity).
    rewrite Em in H3. cbn [snd] in H3. rewrite H3, Er. reflexivity.
  - intros e He. change (s_cost e) with (snd (s_name e, s_cost e)).
    change (s_cost hi) with (snd (s_name hi, s_cost hi)). rewrite <- Er.
    apply H2. exact (in_map (fun e => (s_name e, s_cost e)) _ _ He).
Qed.

Lemma summary_min :
  forall s, s <> [] ->
    exists lo, In lo s
      /\ idxmin (map (fun e => (s_name e, s_cost e)) s) = Ok (s_name lo)
      /\ qmin (map s_cost s) = Ok (s_cost lo)
      /\ (forall e, In e s -> s_cost lo <= s_cost e).
Proof.
  intros [|x s'] Hne; [contradiction|].
  destruct (fold_min_pair (map (fun e => (s_name e, s_cost e)) s') (s_name x, s_cost x))
    as [H1 [H2 H3]].
  set (r := fold_left _ _ _) in H1, H2, H3.
  change ((s_name x, s_cost x) :: map (fun e => (s_name e, s_cost e)) s')
    with (map (fun e => (s_name e, s_cost e)) (x :: s')) in H1, H2.
  destruct (named_in _ _ H1) as [lo [Hin Er]].
  exists lo. split; [exact Hin|]. split; [|split].
  - unfold idxmin, idx_extreme. cbn [map]. fold r. rewrite Er. reflexivity.
  - unfold qmin. cbn [map].
    assert (Em : map snd (map (fun e => (s_name e, s_cost e)) s') = map s_cost s')
      by (rewrite map_map; reflexivity).
    rewrite Em in H3. cbn [snd] in H3. rewrite H3, Er. reflexivity.
  - intros e He. change (s_cost e) with (snd (s_name e, s_cost e)).
    change (s_cost lo) with (snd (s_name lo, s_cost lo)). rewrite <- Er.
    apply H2. exact (in_map (fun e => (s_name e, s_cost e)) _ _ He).
Qed.

Close Scope Q_scope.

Open Scope Q_scope.

(** The ICB extremes recorded by block 2 of [get_enhanced_drug_analysis]: the
    highest and the lowest spending ICB are regions of the summary, their
    amounts are those regions' total costs, every region lies between them,
    and [total_icbs] counts the summary's regions. *)
Theorem regional_extremes :
  forall a icb_df a' rd,
    a_regional_data a = None ->
    regional_block a icb_df = Ok a' ->
    a_regional_data a' = Some rd ->
    exists s hi lo,
      icb_summary icb_df = Ok s /\ total_icbs rd = length s /\ (0 < length s)%nat
      /\ In hi s /\ highest_spending_icb rd = s_name hi
      /\ highest_spending_amount rd = Fin (s_cost hi)
      /\ In lo s /\ lowest_spending_icb rd = s_name lo
      /\ lowest_spending_amount rd = Fin (s_cost lo)
      /\ national_total_cost rd = Fin (qsum (map s_cost s))
      /\ (forall e, In e s -> s_cost lo <= s_cost e /\ s_cost e <= s_cost hi).
Proof.
  intros a icb_df a' rd Ha H Hr.
  unfold regional_block in H.
  destruct (negb (frame_empty icb_df) && has_col "row_name" icb_df).
  2: { injection H as <-. rewrite Ha in Hr. discriminate Hr. }
  destruct (icb_summary icb_df) as [s| |] eqn:Hs; cbn [bind] in H;
    [|discriminate H|discriminate H].
  destruct s as [|x s'].
  { cbn [bind] in H. injection H as <-. cbn [add_source a_regional_data] in Hr.
    rewrite Ha in Hr. discriminate Hr. }
  destruct (summary_max (x :: s') ltac:(discriminate)) as [hi [Hhi [Ehi [Ehiv Bhi]]]].
  destruct (summary_min (x :: s') ltac:(discriminate)) as [lo [Hlo [Elo [Elov Blo]]]].
  cbv zeta in H. rewrite Ehi, Ehiv, Elo, Elov in H. cbn [bind] in H.
  destruct (find_derby (x :: s')) as [loc|]; cbn [bind] in H.
  1: destruct (py_div _ _) as [vs| |]; cbn [bind] in H; [|discriminate H|discriminate H].
  all: injection H as <-; cbn [a_regional_data add_source set_regional] in Hr;
    injection Hr as <-.
  all: exists (x :: s'), hi, lo; cbn [total_icbs highest_spending_icb highest_spending_amount
    lowest_spending_icb lowest_spending_amount national_total_cost].
  all: split; [reflexivity|]; split; [reflexivity|]; split; [simpl; lia|].
  all: do 3 (split; [assumption || reflexivity|]).
  all: do 3 (split; [assumption || reflexivity|]).
  all: split; [reflexivity|].
  all: intros e He; split; [apply Blo | apply Bhi]; exact He.
Qed.

Lemma regional_extremes_witness :
  exists s hi lo,
    icb_summary frame_icb = Ok s /\ total_icbs regional_icb = length s /\ (0 < length s)%nat
    /\ In hi s /\ highest_spending_icb regional_icb = s_name hi
    /\ highest_spending_amount regional_icb = Fin (s_cost hi)
    /\ In lo s /\ lowest_spending_icb regional_icb = s_name lo
    /\ lowest_spending_amount regional_icb = Fin (s_cost lo)
    /\ national_total_cost regional_icb = Fin (qsum (map s_cost s))
    /\ (forall e, In e s -> s_cost lo <= s_cost e /\ s_cost e <= s_cost hi).
Proof.
  apply (regional_extremes (initial_analysis "Sertraline" jan_2024) frame_icb
           analysis_icb regional_icb);
    vm_compute; reflexivity.
Defined.

Close Scope Q_scope.

(** ** Seasonal keys *)

Open Scope Z_scope.

Lemma mp_range :
  forall doe, 0 <= doe <= 146096 ->
    let yoe := Z.div (doe - Z.div doe 1460 + Z.div doe 36524 - Z.div doe 146096) 365 in
    let doy := doe - (365 * yoe + Z.div yoe 4 - Z.div yoe 100) in
    0 <= Z.div (5 * doy + 2) 153 <= 11.
Proof. intros doe H. cbv zeta. Z.div_mod_to_equations. lia. Qed.

Lemma month_of_range : forall t, 1 <= month_of t <= 12.
Proof.
  intro t. unfold month_of, civil_from_days. cbv zeta.
  generalize (t / day_seconds + 719468). intro z.
  assert (Hd : 0 <= z - z / 146097 * 146097 <= 146096)
    by (Z.div_mod_to_equations; lia).
  pose proof (mp_range _ Hd) as Hm. cbv zeta in Hm.
  match type of Hm with 0 <= ?M <= _ => revert Hm; generalize M; intros mp Hm end.
  destruct (mp <? 10) eqn:E; cbv iota; [apply Z.ltb_lt in E|apply Z.ltb_ge in E]; lia.
Qed.

Lemma quarter_of_range : forall t, 1 <= quarter_of t <= 4.
Proof.
  intro t. unfold quarter_of. pose proof (month_of_range t).
  Z.div_mod_to_equations. lia.
Qed.

Close Scope Z_scope.

Lemma insert_key_in {K : Type} (eqb leb : K -> K -> bool) :
  forall k l x, In x (insert_key eqb leb k l) -> x = k \/ In x l.
Proof.
  intros k l x. induction l as [|y l IH]; simpl.
  - intros [<-|[]]. left. reflexivity.
  - destruct (eqb y k); [intro H; right; exact H|].
    destruct (leb y k); simpl.
    + intros [<-|H]; [right; left; reflexivity|].
      destruct (IH H) as [E|E]; [left; exact E|right; right; exact E].
    + intros [<-|H]; [left; reflexivity|right; exact H].
Qed.

Lemma group_keys_in {K : Type} (eqb leb : K -> K -> bool) :
  forall ks x, In x (group_keys eqb leb ks) -> In x ks.
Proof.
  intros ks x. unfold group_keys.
  assert (G : forall ks acc, In x (fold_left (fun acc k => insert_key eqb leb k acc) ks acc)
                             -> In x acc \/ In x ks).
  { induction ks0 as [|k ks0 IH]; intros acc H; simpl in H; [left; exact H|].
    destruct (IH _ H) as [H'|H'].
    - destruct (insert_key_in eqb leb k acc x H') as [<-|H''].
      + right. left. reflexivity.
      + left. exact H''.
    - right. right. exact H'. }
  intro H. destruct (G ks [] H) as [[]|H']. exact H'.
Qed.

Lemma group_mean_keys : forall l k, In k (map fst (group_mean l)) -> In k (map fst l).
Proof.
  intros l k H. unfold group_mean in H. rewrite map_map in H. cbn [fst] in H.
  rewrite map_id in H. exact (group_keys_in _ _ _ _ H).
Qed.

Lemma idx_extreme_in {K : Type} (better : Q -> Q -> bool) :
  forall (l : list (K * Q)) k, idx_extreme better l = Ok k -> In k (map fst l).
Proof.
  intros [|[k0 v0] l] k H; cbn [idx_extreme] in H; [discriminate H|].
  injection H as <-. apply in_map.
  apply (fold_choose_in (fun acc kv => if better (snd kv) (snd acc) then kv else acc)).
  intros m y. destruct (better (snd y) (snd m)); [right|left]; reflexivity.
Qed.

Lemma keyed_costs_in :
  forall mq costs m q c, In (m, q, c) (keyed_costs mq costs) -> In (Some (m, q)) mq.
Proof.
  induction mq as [|o mq IH]; intros costs m q c H; [destruct costs; contradiction|].
  destruct o as [[m' q']|]; destruct costs as [|c' costs]; cbn [keyed_costs] in H;
    try contradiction.
  - destruct H as [E|H].
    + injection E as -> -> ->. left. reflexivity.
    + right. exact (IH _ _ _ _ H).
  - right. exact (IH _ _ _ _ H).
Qed.

Lemma map_outcome_in {A B : Type} (f : A -> outcome B) :
  forall l l' y, map_outcome f l = Ok l' -> In y l' -> exists x, In x l /\ f x = Ok y.
Proof.
  induction l as [|x l IH]; intros l' y H Hy; cbn [map_outcome] in H.
  - injection H as <-. destruct Hy.
  - destruct (f x) as [y'| |] eqn:Ef; cbn [bind] in H; [|discriminate H|discriminate H].
    destruct (map_outcome f l) as [ys| |] eqn:Em; cbn [bind] in H;
      [|discriminate H|discriminate H].
    injection H as <-. destruct Hy as [<-|Hy].
    + exists x. split; [left; reflexivity|exact Ef].
    + destruct (IH ys y eq_refl Hy) as [x' [Hx' Ex']].
      exists x'. split; [right; exact Hx'|exact Ex'].
Qed.

Lemma key_from_row :
  forall df mq costs m q c,
    map_outcome month_quarter (rows df) = Ok mq ->
    In (m, q, c) (keyed_costs mq costs) ->
    exists r t, In r (rows df) /\ row_get "date" r = CTime t
      /\ m = month_of t /\ q = quarter_of t.
Proof.
  intros df mq costs m q c Hmq Hin.
  destruct (map_outcome_in _ _ _ _ Hmq (keyed_costs_in _ _ _ _ _ Hin)) as [r [Hr E]].
  unfold month_quarter in E. destruct (row_get "date" r) as [j|t|] eqn:Ed;
    [discriminate E| |discriminate E].
  injection E as <- <-. exists r, t. repeat split; assumption.
Qed.

Lemma monthly_key_row :
  forall df mq costs m,
    map_outcome month_quarter (rows df) = Ok mq ->
    In m (map fst (monthly_avg mq costs)) ->
    exists r t, In r (rows df) /\ row_get "date" r = CTime t /\ m = month_of t.
Proof.
  intros df mq costs m Hmq H. unfold monthly_avg in H.
  apply group_mean_keys in H. rewrite map_map in H. apply in_map_iff in H.
  destruct H as [[[m' q] c] [E Hin]]. cbn [fst] in E. subst m'.
  destruct (key_from_row _ _ _ _ _ _ Hmq Hin) as [r [t [Hr [Ht [Em _]]]]].
  exists r, t. repeat split; assumption.
Qed.

Lemma quarterly_key_row :
  forall df mq costs q,
    map_outcome month_quarter (rows df) = Ok mq ->
    In q (map fst (quarterly_avg mq costs)) ->
    exists r t, In r (rows df) /\ row_get "date" r = CTime t /\ q = quarter_of t.
Proof.
  intros df mq costs q Hmq H. unfold quarterly_avg in H.
  apply group_mean_keys in H. rewrite map_map in H. apply in_map_iff in H.
  destruct H as [[[m q'] c] [E Hin]]. cbn [fst snd] in E. subst q'.
  destruct (key_from_row _ _ _ _ _ _ Hmq Hin) as [r [t [Hr [Ht [_ Eq]]]]].
  exists r, t. repeat split; assumption.
Qed.

(** The keys chosen by block 3 of [get_enhanced_drug_analysis]: the highest
    and the lowest spending month are the calendar months (1 to 12) of dated
    rows of the trend frame, and the highest spending quarter is the quarter
    (1 to 4) of a dated row. *)
Theorem seasonal_keys :
  forall a df a' sp,
    a_seasonal_patterns a = None ->
    seasonal_block a df = Ok a' ->
    a_seasonal_patterns a' = Some sp ->
    (exists r t, In r (rows df) /\ row_get "date" r = CTime t
                 /\ highest_spending_month sp = month_of t)
    /\ (exists r t, In r (rows df) /\ row_get "date" r = CTime t
                    /\ lowest_spending_month sp = month_of t)
    /\ (exists r t, In r (rows df) /\ row_get "date" r = CTime t
                    /\ highest_spending_quarter sp = quarter_of t)
    /\ (1 <= highest_spending_month sp <= 12)%Z
    /\ (1 <= lowest_spending_month sp <= 12)%Z
    /\ (1 <= highest_spending_quarter sp <= 4)%Z.
Proof.
  intros a df a' sp Ha H Hs.
  unfold seasonal_block in H.
  destruct (negb (frame_empty df) && Nat.leb 12 (length (rows df)) && has_col "date" df).
  2: { injection H as <-. rewrite Ha in Hs. discriminate Hs. }
  destruct (map_outcome month_quarter (rows df)) as [mq| |] eqn:Hmq; cbn [bind] in H;
    [|discriminate H|discriminate H].
  destruct (has_col "actual_cost" df).
  2: { injection H as <-. rewrite Ha in Hs. discriminate Hs. }
  destruct (num_column df "actual_cost") as [costs| |]; cbn [bind] in H;
    [|discriminate H|discriminate H].
  cbv zeta in H.
  destruct (idxmax (monthly_avg mq costs)) as [hm| |] eqn:Ehm; cbn [bind] in H;
    [|discriminate H|discriminate H].
  destruct (idxmin (monthly_avg mq costs)) as [lm| |] eqn:Elm; cbn [bind] in H;
    [|discriminate H|discriminate H].
  destruct (idxmax (quarterly_avg mq costs)) as [hq| |] eqn:Ehq; cbn [bind] in H;
    [|discriminate H|discriminate H].
  destruct (seasonal_variation (monthly_avg mq costs)) as [sv| |]; cbn [bind] in H;
    [|discriminate H|discriminate H].
  injection H as <-. cbn [a_seasonal_patterns set_seasonal] in Hs. injection Hs as <-.
  cbn [highest_spending_month lowest_spending_month highest_spending_quarter].
  destruct (monthly_key_row df mq costs hm Hmq (idx_extreme_in _ _ _ Ehm))
    as [r1 [t1 [Hr1 [Ht1 E1]]]].
  destruct (monthly_key_row df mq costs lm Hmq (idx_extreme_in _ _ _ Elm))
    as [r2 [t2 [Hr2 [Ht2 E2]]]].
  destruct (quarterly_key_row df mq costs hq Hmq (idx_extreme_in _ _ _ Ehq))
    as [r3 [t3 [Hr3 [Ht3 E3]]]].
  subst hm lm hq.
  split; [exists r1, t1; repeat split; assumption|].
  split; [exists r2, t2; repeat split; assumption|].
  split; [exists r3, t3; repeat split; assumption|].
  split; [apply month_of_range|]. split; [apply month_of_range|]. apply quarter_of_range.
Qed.

Lemma seasonal_keys_witness :
  exists a' sp,
    seasonal_block (initial_analysis "Sertraline" jan_2024) (frame_year 100) = Ok a'
    /\ a_seasonal_patterns a' = Some sp
    /\ (exists r t, In r (rows (frame_year 100)) /\ row_get "date" r = CTime t
                    /\ highest_spending_month sp = month_of t)
    /\ (exists r t, In r (rows (frame_year 100)) /\ row_get "date" r = CTime t
                    /\ lowest_spending_month sp = month_of t)
    /\ (exists r t, In r (rows (frame_year 100)) /\ row_get "date" r = CTime t
                    /\ highest_spending_quarter sp = quarter_of t)
    /\ (1 <= highest_spending_month sp <= 12)%Z
    /\ (1 <= lowest_spending_month sp <= 12)%Z
    /\ (1 <= highest_spending_quarter sp <= 4)%Z.
Proof.
  eexists. eexists. split; [vm_compute; reflexivity|].
  split; [vm_compute; reflexivity|].
  eapply (seasonal_keys (initial_analysis "Sertraline" jan_2024) (frame_year 100));
    vm_compute; reflexivity.
Defined.

Lemma search_never_suggests_witness :
  exists ms x,
    search_drugs env_offline "prednisolone" = Ok ms /\ In x ms
    /\ snd x <> "Similar to: " ++ "Oral Corticosteroid".
Proof.
  eexists. eexists. split; [vm_compute; reflexivity|]. split; [vm_compute; left; reflexivity|].
  eapply (search_never_suggests env_offline "prednisolone");
    [vm_compute; reflexivity|vm_compute; left; reflexivity].
Defined.

(** ** Trend block away from twelve periods *)

(** Block 1 of [get_enhanced_drug_analysis] on a frame whose length [n] is not
    twelve, with an [actual_cost] column: it records [n] as
    ["months_of_data"], adds ["mom_change_pct"] exactly when [n >= 2],
    ["yoy_change_pct"] exactly when [n >= 13] and ["overall_trend"] exactly
    when [n >= 6], the latter being one of ["increasing"], ["decreasing"],
    ["stable"]; and it appends the trend data source. *)
Theorem trend_block_fields :
  forall a df dr li costs,
    length (rows df) <> 12%nat ->
    rows df <> [] ->
    has_col "actual_cost" df = true ->
    date_range_of df = Ok dr ->
    latest_or_zero df "items" = Ok li ->
    num_column df "actual_cost" = Ok costs ->
    exists td,
      trend_block a df = Ok (add_source (set_trend a td) "OpenPrescribing trend data (36 months)")
      /\ months_of_data td = length (rows df) /\ date_range td = dr
      /\ latest_items td = li
      /\ (mom_change_pct td <> None <-> (2 <= length (rows df))%nat)
      /\ (yoy_change_pct td <> None <-> (13 <= length (rows df))%nat)
      /\ (overall_trend td <> None <-> (6 <= length (rows df))%nat)
      /\ (forall s, overall_trend td = Some s ->
            s = "increasing" \/ s = "decreasing" \/ s = "stable").
Proof.
  intros a df dr li costs H12 Hr Hcol Hdr Hli Hcosts.
  assert (Hne : frame_empty df = false) by exact (frame_nonempty df "actual_cost" Hcol Hr).
  pose proof (num_column_length _ _ _ Hcosts) as Hcl.
  assert (Hn : (1 <= length (rows df))%nat)
    by (destruct (rows df); [contradiction|simpl; lia]).
  set (n := length (rows df)) in *.
  assert (Hk : forall k, iloc_neg df "actual_cost" k
                         = if Nat.leb k n then Ok (nth (n - k) costs 0%Q)
                           else Raise IndexError).
  { intro k. unfold iloc_neg. rewrite Hcosts. cbn [bind]. rewrite Hcl. reflexivity. }
  assert (Hlc : latest_or_zero df "actual_cost" = Ok (Fin (nth (n - 1) costs 0%Q))).
  { unfold latest_or_zero. rewrite Hcol, Hk.
    destruct (Nat.leb_spec 1 n); [reflexivity|lia]. }
  unfold trend_block. rewrite Hne, Hdr. fold n. cbn [bind negb].
  rewrite Hlc. cbn [bind]. rewrite Hli. cbn [bind]. rewrite Hcol, andb_true_r.
  rewrite !Hk, Hcosts.
  destruct (Nat.leb_spec 2 n) as [L2|L2].
  - destruct (Nat.leb_spec 1 n) as [_|]; [|lia].
    cbn [bind].
    destruct (Nat.leb_spec 12 n) as [L12|L12].
    + destruct (Nat.leb_spec 13 n) as [_|]; [|lia].
      cbn [bind].
      destruct (Nat.leb_spec 6 n) as [_|]; [|lia].
      cbn [bind]. cbv zeta.
      eexists. split; [reflexivity|].
      cbn [months_of_data date_range latest_items mom_change_pct yoy_change_pct
           overall_trend set_overall set_yoy set_mom].
      do 3 (split; [reflexivity|]).
      split; [split; [intros _; lia|discriminate]|].
      split; [split; [intros _; lia|discriminate]|].
      split; [split; [intros _; lia|discriminate]|].
      intros s Hs. injection Hs as <-.
      destruct (negb _); [left; reflexivity|].
      destruct (negb _); [right; left; reflexivity|right; right; reflexivity].
    + cbn [bind].
      destruct (Nat.leb_spec 6 n) as [L6|L6]; cbn [bind]; cbv zeta;
        eexists; (split; [reflexivity|]);
        cbn [months_of_data date_range latest_items mom_change_pct yoy_change_pct
             overall_trend set_overall set_yoy set_mom];
        (do 3 (split; [reflexivity|]));
        (split; [split; [intros _; lia|discriminate]|]);
        (split; [split; [intro C; contradiction C; reflexivity|lia]|]).
      * split; [split; [intros _; lia|discriminate]|].
        intros s Hs. injection Hs as <-.
        destruct (negb _); [left; reflexivity|].
        destruct (negb _); [right; left; reflexivity|right; right; reflexivity].
      * split; [split; [intro C; contradiction C; reflexivity|lia]|].
        intros s Hs. discriminate Hs.
  - cbn [bind]. eexists. split; [reflexivity|].
    cbn [months_of_data date_range latest_items mom_change_pct yoy_change_pct
         overall_trend].
    do 3 (split; [reflexivity|]).
    split; [split; [intro C; contradiction C; reflexivity|lia]|].
    split; [split; [intro C; contradiction C; reflexivity|lia]|].
    split; [split; [intro C; contradiction C; reflexivity|lia]|].
    intros s Hs. discriminate Hs.
Qed.

Lemma trend_block_fields_witness :
  exists td,
    trend_block (initial_analysis "0212000AA" jan_2024) (frame_13 100)
      = Ok (add_source (set_trend (initial_analysis "0212000AA" jan_2024) td)
                       "OpenPrescribing trend data (36 months)")
    /\ months_of_data td = length (rows (frame_13 100))
    /\ date_range td = "2023-01 to 2024-01"
    /\ latest_items td = Fin 5
    /\ (mom_change_pct td <> None <-> (2 <= length (rows (frame_13 100)))%nat)
    /\ (yoy_change_pct td <> None <-> (13 <= length (rows (frame_13 100)))%nat)
    /\ (overall_trend td <> None <-> (6 <= length (rows (frame_13 100)))%nat)
    /\ (forall s, overall_trend td = Some s ->
          s = "increasing" \/ s = "decreasing" \/ s = "stable").
Proof.
  apply (trend_block_fields _ _ "2023-01 to 2024-01" (Fin 5)
           (repeat (inject_Z 100) 13)); vm_compute; first [reflexivity | discriminate].
Defined.
